(** * Exchange wrappers of the trading bot: Poloniex and Binance

    A shallow embedding of the two exchange adapters
    ([exchange/wrappers/poloniex.js], [exchange/wrappers/binance.js]) and of
    the properties their specification states about them.

    JavaScript numbers are IEEE 754 binary64 values: they are modelled by the
    primitive floats of Rocq, so every evaluation below computes what the
    JavaScript engine computes.  Strings are [string]; a callback-passing
    function is modelled by the value it hands to its callback. *)

From Stdlib Require Import Bool List String Ascii ZArith Lia Floats Uint63
  DecimalString.
Import ListNotations.

Set Implicit Arguments.
Set Warnings "-inexact-float".

(* ------------------------------------------------------------------ *)
(** * The JavaScript fragment the adapters use *)
(* ------------------------------------------------------------------ *)

Module Js.

Local Open Scope string_scope.

(** [s.includes(item)]: [item] occurs in [s] as a contiguous substring. *)
Fixpoint str_includes (s item : string) : bool :=
  if String.prefix item s then true
  else match s with
       | EmptyString => false
       | String _ rest => str_includes rest item
       end.

(** The one-argument [Error] object the adapters build: its message and the
    [notFatal] property that the classifier may set on it. *)
Record Error : Type := mkError { message : string; notFatal : bool }.

(** What a callback chain ends in: [callback(err)], [callback(undefined, a)],
    or an exception that escapes the operation. *)
Inductive reply (E A : Type) : Type :=
| Fail (e : E)
| Done (a : A)
| Thrown (what : string).

Arguments Fail {E A} e.
Arguments Done {E A} a.
Arguments Thrown {E A} what.

(** What [checkOrder] reports: [{ executed, open, filledAmount }], the last
    property being present for an open order only. *)
Record orderStatus : Type := mkStatus
  { executed : bool;
    open : bool;
    filledAmount : option float }.

(** ** Numbers *)

Local Open Scope float_scope.

Definition two52 : float := 4503599627370496.

(** The integer [floor x] of a finite binary64 value, exactly. *)
Definition floorZ (x : float) : Z :=
  match Prim2SF x with
  | S754_finite s m e =>
      let n := if s then Z.neg m else Z.pos m in
      if (0 <=? e)%Z then (n * 2 ^ e)%Z else (n / 2 ^ (- e))%Z
  | _ => 0%Z
  end.

(** The integer closest to a finite [x], ties towards +infinity
    ([Math.round]), exactly: floor (x + 1/2). *)
Definition roundZ (x : float) : Z :=
  match Prim2SF x with
  | S754_finite s m e =>
      let n := if s then Z.neg m else Z.pos m in
      if (0 <=? e)%Z then (n * 2 ^ e)%Z
      else ((2 * n + 2 ^ (- e)) / 2 ^ (- e + 1))%Z
  | _ => 0%Z
  end.

(** An integer of magnitude below 2^53 as a binary64 value (exact). *)
Definition of_Z (z : Z) : float :=
  match z with
  | Z0 => 0
  | Zpos _ => PrimFloat.of_uint63 (Uint63.of_Z z)
  | Zneg _ => - PrimFloat.of_uint63 (Uint63.of_Z (- z))
  end.

(** [isFinite(x)] and [isNaN(x)]. *)
Definition isFinite (x : float) : bool :=
  match Prim2SF x with
  | S754_zero _ | S754_finite _ _ _ => true
  | _ => false
  end.

Definition isNaN (x : float) : bool := PrimFloat.is_nan x.

(** Values of magnitude 2^52 or more, zeros, infinities and NaN are their
    own floor and their own rounding. *)
Definition small (x : float) : bool :=
  isFinite x && (abs x <? two52) && negb (x =? 0).

Definition floor (x : float) : float :=
  if small x then of_Z (floorZ x) else x.

(** [Math.round]; a negative value that rounds to zero gives [-0]. *)
Definition round (x : float) : float :=
  if small x then
    let r := of_Z (roundZ x) in
    if (r =? 0) && (x <? 0) then - r else r
  else x.

(** [e] after [n] rounds of [e *= 10] from 1: the power 10^n itself up to
    n = 22, a binary64 approximation of it beyond. *)
Definition pow10 (n : nat) : float := Nat.iter n (fun e => e * 10) 1.

(** [Math.pow(10, n)] for a natural [n].  ECMAScript leaves the result of
    [Math.pow] implementation-approximated.  Up to n = 22 the power is a
    binary64 value and is what the engines return; beyond, the result is the
    engine's own approximation [approx n], which need not be the product of
    [n] tens. *)
Definition Math_pow10 (approx : nat -> float) (n : nat) : float :=
  if (n <=? 22)%nat then pow10 n else approx n.

(** An engine that rounds to nearest: the binary64 value nearest to 10^n,
    ties to even, infinity from 10^309 on. *)
Definition nearest_pow10 (n : nat) : float :=
  SF2Prim (binary_normalize prec emax (10 ^ Z.of_nat n) 0 false).

End Js.

Import Js.

(* ------------------------------------------------------------------ *)
(** * The retry scheduler *)
(* ------------------------------------------------------------------ *)

Module Retry.

(** One more attempt was made. *)
Definition bump {R : Type} (r : option (R * nat)) : option (R * nat) :=
  match r with
  | Some (x, n) => Some (x, S n)
  | None => None
  end.

(** Modelled from the spec: [retry] of [exchange/exchangeUtils], which both
    wrappers import and which is not among the sources.  Section 4.2: the
    scheduler invokes the attempt repeatedly; on success it returns at once;
    on a fatal error it returns at once with the error; on a retryable
    error it waits and retries, and once the attempt budget is exhausted it
    surfaces the last error.  An attempt reports [next(error, data)];
    [retryable] tells which errors are retryable ones.

    [reports] lists what the successive attempts report, [None] standing
    for an attempt that does not report exactly once; [cap] is the attempt
    budget of the policy.  The result pairs what [handle] returns with the
    number of attempts made; it is [None] where the text above says
    nothing. *)
Fixpoint retry {E D R : Type} (retryable : E -> bool) (cap : nat)
    (reports : list (option (option E * D)))
    (handle : option E -> D -> R) : option (R * nat) :=
  match cap, reports with
  | S cap', Some (None, d) :: _ => Some (handle None d, 1%nat)
  | S cap', Some (Some e, d) :: rest =>
      if retryable e then
        match cap' with
        | O => Some (handle (Some e) d, 1%nat)
        | S _ => bump (retry retryable cap' rest handle)
        end
      else Some (handle (Some e) d, 1%nat)
  | _, _ => None
  end.

(** Modelled from the spec: [retry] under a policy of unlimited attempts
    ([forever: true]), section 4.2: on a retryable error the scheduler
    retries, indefinitely.  The result is [None] when the listed reports end
    before one of them is final. *)
Fixpoint retry_forever {E D R : Type} (retryable : E -> bool)
    (reports : list (option (option E * D)))
    (handle : option E -> D -> R) : option (R * nat) :=
  match reports with
  | Some (None, d) :: _ => Some (handle None d, 1%nat)
  | Some (Some e, d) :: rest =>
      if retryable e then bump (retry_forever retryable rest handle)
      else Some (handle (Some e) d, 1%nat)
  | _ => None
  end.

(** The operation ended, after at most [cap] attempts, in one call of the
    caller's callback, with an error or with a result; it neither raised nor
    stayed silent. *)
Definition calls_back {E A : Type} (cap : nat) (r : option (reply E A * nat))
    : Prop :=
  match r with
  | Some (Fail _, n) | Some (Done _, n) => (1 <= n <= cap)%nat
  | _ => False
  end.

End Retry.

(* ------------------------------------------------------------------ *)
(** * Poloniex adapter *)
(* ------------------------------------------------------------------ *)

Module Poloniex.

Local Open Scope string_scope.

Definition recoverableErrors : list string :=
  [ "SOCKETTIMEDOUT"; "TIMEDOUT"; "CONNRESET"; "CONNREFUSED"; "NOTFOUND";
    "429"; "522"; "504"; "503"; "500"; "502";
    "Empty response";
    "Please try again in a few minutes.";
    "Nonce must be greater than" ].

(** errors that might mean the API call succeeded. *)
Definition unknownResultErrors : list string := [ "ETIMEDOUT" ].

(** ** Raw input of [processResponse] *)

(** The [err] argument: a falsy value, a string, or an [Error] object. *)
Inductive rawError : Type :=
| NoError
| ErrorText (s : string)
| ErrorObject (name msg : string).

Definition err_truthy (e : rawError) : bool :=
  match e with
  | NoError => false
  | ErrorText s => negb (s =? "")
  | ErrorObject _ _ => true
  end.

(** [String(err)], the message [new Error(err)] stores. *)
Definition err_toString (e : rawError) : string :=
  match e with
  | NoError => "undefined"
  | ErrorText s => s
  | ErrorObject name msg =>
      if name =? "" then msg
      else if msg =? "" then name
      else name ++ ": " ++ msg
  end.

(** The [data] argument.  [Nullish] is [undefined] or [null]; [Text s] is a
    string body ([Text ""] also stands for the other falsy scalars, which
    behave like it: falsy, no properties, no elements); [Json error v] is a
    parsed object or array [v] whose [error] property, when truthy, has the
    string form [error]. *)
Inductive body (P : Type) : Type :=
| Nullish
| Text (s : string)
| Json (error : option string) (v : P).

Arguments Nullish {P}.
Arguments Text {P} s.
Arguments Json {P} error v.

Definition body_truthy {P} (d : body P) : bool :=
  match d with
  | Nullish => false
  | Text s => negb (s =? "")
  | Json _ _ => true
  end.

Definition body_error {P} (d : body P) : option string :=
  match d with
  | Json (Some e) _ => Some e
  | _ => None
  end.

(** [includes(str, list)]: false unless [str] is a string. *)
Definition includes (str : option string) (list : list string) : bool :=
  match str with
  | None => false
  | Some s => existsb (fun item => str_includes s item) list
  end.

Definition body_string {P} (d : body P) : option string :=
  match d with
  | Text s => Some s
  | _ => None
  end.

(** What [processResponse] passes on as [data]: [undefined], the body it
    received, or one of the two marker objects it creates. *)
Inductive data (P : Type) : Type :=
| Undefined
| Body (d : body P)
| Unfilled                     (* { unfilled: true } *)
| Filled.                      (* { filled: true } *)

Arguments Undefined {P}.
Arguments Body {P} d.
Arguments Unfilled {P}.
Arguments Filled {P}.

(** The adapter instance ([this]).  The constructor sets the pair;
    [checkInterval] is [None] until the owner of the adapter assigns it. *)
Record Trader : Type := mkTrader
  { currency : string;
    asset : string;
    checkInterval : option Z }.

(** What the returned closure does: it calls [next(error, data)], or it
    arms a timer of [delay] milliseconds ([this.checkInterval]) that will run
    [findLastTrade(2, _)] and call [next] from there, keeping [error] for
    the failure case. *)
Inductive action (P : Type) : Type :=
| Next (error : option Error) (d : data P)
| CheckLastTrade (delay : option Z) (error : Error).

Arguments Next {P} error d.
Arguments CheckLastTrade {P} delay error.

Definition cloudflare_page : string :=
  "Please complete the security check to proceed.".
Definition cloudflare_message : string :=
  "Your IP has been flagged by CloudFlare. As such Gekko Broker cannot access Poloniex.".
Definition try_again : string := "Please try again in a few minutes.".
Definition doctype : string := "<!DOCTYPE html>".
Definition order_not_found : string :=
  "Order not found, or you are not the person who placed it.".
Definition invalid_order_number : string :=
  "Invalid order number, or you are not the person who placed the order.".

(** First half of the closure: the [if / else if] chain that decides whether
    the call failed. *)
Definition detect {P} (err : rawError) (d : body P) : option Error * data P :=
  if err_truthy err then
    (Some (mkError (err_toString err) false), Body d)
  else if negb (body_truthy d) then
    (Some (mkError "Empty response" false), Body d)
  else match body_error d with
  | Some e => (Some (mkError e false), Body d)
  | None =>
    if includes (body_string d) [cloudflare_page] then
      (Some (mkError cloudflare_message false), Undefined)
    else if includes (body_string d) [try_again] then
      (Some (mkError try_again true), Undefined)
    else if includes (body_string d) [doctype] then
      (Some (mkError (match body_string d with Some s => s | None => "" end) false),
       Undefined)
    else (None, Body d)
  end.

(** [if (includes(error.message, recoverableErrors)) error.notFatal = true] *)
Definition mark (error : Error) : Error :=
  if includes (Some (message error)) recoverableErrors
  then mkError (message error) true
  else error.

Definition fn_is (fn : option string) (name : string) : bool :=
  match fn with
  | Some f => f =? name
  | None => false
  end.

(** Second half: the three operation-specific branches.  Their guards name
    three different [fn] values, so at most one of them fires. *)
Definition processResponse {P} (self : Trader) (fn : option string)
    (err : rawError) (d : body P) : action P :=
  match detect err d with
  | (None, data) => Next None data
  | (Some error0, data) =>
      let error := mark error0 in
      if fn_is fn "getOrder"
         && str_includes (message error) order_not_found then
        Next None Unfilled
      else if fn_is fn "cancelOrder"
         && str_includes (message error) invalid_order_number then
        Next None Filled
      else if fn_is fn "order"
         && includes (Some (message error)) unknownResultErrors then
        CheckLastTrade (checkInterval self) error
      else Next (Some error) data
  end.

(** ** Payloads *)

(** An order number as the exchange reports it; [===] is structural. *)
Inductive ident : Type :=
| IdUndefined
| IdNum (n : Z)
| IdText (s : string).

Definition ident_eqb (a b : ident) : bool :=
  match a, b with
  | IdUndefined, IdUndefined => true
  | IdNum n, IdNum m => Z.eqb n m
  | IdText s, IdText t => s =? t
  | _, _ => false
  end.

(** The argument of [moment(_)] / [moment.utc(_)]: an instant (a number of
    milliseconds since the epoch, or a text that names its zone); a date and
    time without zone, [wall] being the instant it names when read as UTC
    ([moment.utc] reads it so, [moment] reads it in local time); [undefined]
    (moment then takes the current instant); or something moment cannot
    parse. *)
Inductive jsdate : Type :=
| DateAt (t : Z)
| DateLocal (wall : Z)
| DateMissing
| DateInvalid.

(** The two object literals [processResponse] creates. *)
Inductive marker : Type := MUnfilled | MFilled.

(** How an operation sees a string or a marker object through the
    properties and elements it reads. *)
Class Payload (P : Type) : Type :=
  { View : Type;
    of_json : P -> View;
    of_text : string -> View;
    of_marker : marker -> View }.

Arguments View P {_}.

(** The object a handler reads [result] as; [None] for [undefined] and
    [null], on which a property read raises a TypeError. *)
Definition view {P} `{Payload P} (result : data P) : option (View P) :=
  match result with
  | Undefined => None
  | Body Nullish => None
  | Body (Text s) => Some (of_text s)
  | Body (Json _ v) => Some (of_json v)
  | Unfilled => Some (of_marker MUnfilled)
  | Filled => Some (of_marker MFilled)
  end.

Definition TypeError : string := "TypeError".
Definition ReferenceError : string := "ReferenceError: next is not defined".

(** *** Order placement: [{ orderNumber }] *)
Record placed : Type := mkPlaced { orderNumber : ident }.

#[export] Instance placed_payload : Payload placed :=
  {| View := placed;
     of_json := fun v => v;
     of_text := fun _ => mkPlaced IdUndefined;
     of_marker := fun _ => mkPlaced IdUndefined |}.

(** *** Open orders: an array of orders (or an object, whose own values
    lodash iterates and which has no [length]).  [SparseArray] and
    [SparseObject] are an array and an object that hold [null] or
    [undefined], written [None], where an order is expected.  An object with
    a numeric [length] of its own is iterated by index, like an array: what
    [checkOrder] reads of it is a [SparseObject], what [findLastTrade] reads
    of it a [SparseArray]. *)
Record openOrder : Type := mkOpenOrder
  { o_orderNumber : ident;
    o_date : jsdate;
    startingAmount : float;       (* Number(order.startingAmount) *)
    o_amount : float }.           (* Number(order.amount) *)

Inductive openOrders : Type :=
| OrderArray (l : list openOrder)
| OrderObject (completed : bool) (values : list openOrder)
| SparseArray (l : list (option openOrder))
| SparseObject (completed : bool) (values : list (option openOrder)).

(** A character of a string, or the [true] inside a marker, read as an
    order: no property is defined. *)
Definition blank_order : openOrder :=
  mkOpenOrder IdUndefined DateMissing nan nan.

#[export] Instance openOrders_payload : Payload openOrders :=
  {| View := openOrders;
     of_json := fun v => v;
     of_text := fun s => OrderArray (repeat blank_order (String.length s));
     of_marker := fun _ => OrderObject false [blank_order] |}.

Definition completed_of (r : openOrders) : bool :=
  match r with
  | OrderArray _ | SparseArray _ => false
  | OrderObject c _ | SparseObject c _ => c
  end.

(** The elements lodash visits, in order. *)
Definition elements (r : openOrders) : list (option openOrder) :=
  match r with
  | OrderArray l | OrderObject _ l => map Some l
  | SparseArray l | SparseObject _ l => l
  end.

(** [!result.length] *)
Definition length_falsy (r : openOrders) : bool :=
  match r with
  | OrderArray [] | SparseArray [] => true
  | OrderArray _ | SparseArray _ => false
  | OrderObject _ _ | SparseObject _ _ => true
  end.

(** [_.last(result)]; a last element that is [null] is as good as none. *)
Definition last_of (r : openOrders) : option openOrder :=
  match r with
  | OrderArray l => List.last (map Some l) None
  | SparseArray l => List.last l None
  | OrderObject _ _ | SparseObject _ _ => None
  end.

(** What [_.find(collection, o => test(o))] ends in when [test] reads a
    property of [o]: the first element that passes, none, or the TypeError
    the read raises at an element that is [null] or [undefined]. *)
Inductive search (A : Type) : Type :=
| Hit (x : A)
| Miss
| Broken.

Arguments Hit {A} x.
Arguments Miss {A}.
Arguments Broken {A}.

Fixpoint find_reading {A : Type} (test : A -> bool) (l : list (option A))
    : search A :=
  match l with
  | [] => Miss
  | None :: _ => Broken
  | Some x :: rest => if test x then Hit x else find_reading test rest
  end.

(** *** Trades of one order: an array of [{ date, rate, amount }] *)
Record trade : Type := mkTrade
  { t_date : jsdate;
    rate : float;                 (* +trade.rate *)
    t_amount : float }.           (* +trade.amount *)

Record orderTrades : Type := mkOrderTrades
  { unfilled : bool;              (* truthiness of result.unfilled *)
    fills : list (option trade) }.
                                  (* the elements _.each visits; [None] is an
                                     element that is null or undefined *)

Definition blank_trade : trade := mkTrade DateMissing nan nan.

(** An array of trades. *)
#[export] Instance orderTrades_payload : Payload (list trade) :=
  {| View := orderTrades;
     of_json := fun l => mkOrderTrades false (map Some l);
     of_text := fun s =>
       mkOrderTrades false (repeat (Some blank_trade) (String.length s));
     of_marker := fun m =>
       match m with
       | MUnfilled => mkOrderTrades true [Some blank_trade]
       | MFilled => mkOrderTrades false [Some blank_trade]
       end |}.

(** An array that holds [null] or [undefined], written [None], where a trade
    is expected. *)
Definition sparseTrades : Type := list (option trade).

#[export] Instance sparseTrades_payload : Payload sparseTrades :=
  {| View := orderTrades;
     of_json := fun l => mkOrderTrades false l;
     of_text := fun s =>
       mkOrderTrades false (repeat (Some blank_trade) (String.length s));
     of_marker := fun m =>
       match m with
       | MUnfilled => mkOrderTrades true [Some blank_trade]
       | MFilled => mkOrderTrades false [Some blank_trade]
       end |}.

(** *** Cancellation: the exchange answers [{ success, amount, message }] *)
Record cancelResponse : Type := mkCancelResponse
  { r_success : bool }.           (* truthiness of the success property *)

Record cancelled : Type := mkCancelled
  { filled : bool;                (* truthiness of result.filled *)
    success : bool }.             (* truthiness of result.success *)

#[export] Instance cancelled_payload : Payload cancelResponse :=
  {| View := cancelled;
     of_json := fun r => mkCancelled false (r_success r);
     of_text := fun _ => mkCancelled false false;
     of_marker := fun m =>
       match m with
       | MUnfilled => mkCancelled false false
       | MFilled => mkCancelled true false
       end |}.

(** *** Balances: [parseFloat(data[name])] for each name the exchange lists;
    a name it does not list parses to NaN. *)
Definition balances : Type := list (string * float).

#[export] Instance balances_payload : Payload balances :=
  {| View := balances;
     of_json := fun v => v;
     of_text := fun _ => [];
     of_marker := fun _ => [] |}.

Fixpoint parsed (data : balances) (name : string) : float :=
  match data with
  | [] => nan
  | (k, x) :: rest => if k =? name then x else parsed rest name
  end.

(** The outcome taxonomy of the specification (section 3), read off what
    the closure does. *)
Inductive Outcome (P : Type) : Type :=
| Success (payload : data P)
| FatalError (reason : string)
| RetryableError (reason : string)
| AmbiguousResult (reason : string).

Arguments Success {P} payload.
Arguments FatalError {P} reason.
Arguments RetryableError {P} reason.
Arguments AmbiguousResult {P} reason.

Definition classify {P} (a : action P) : Outcome P :=
  match a with
  | Next None d => Success d
  | Next (Some e) _ =>
      if notFatal e then RetryableError (message e) else FatalError (message e)
  | CheckLastTrade _ e => AmbiguousResult (message e)
  end.

Local Open Scope float_scope.


(** ** [roundAmount], [roundPrice]: [return +amount] *)
Definition roundAmount (amount : float) : float := amount.
Definition roundPrice (price : float) : float := price.

(** ** [getPortfolio]: the [handle] that receives the balances *)
Definition getPortfolio_handle (self : Trader)
    (err : option Error) (result : data balances)
    : reply Error (list (string * float)) :=
  match err with
  | Some e => Fail e
  | None =>
    match view result with
    | None => Thrown TypeError
    | Some data =>
      let assetAmount := parsed data (asset self) in
      let currencyAmount := parsed data (currency self) in
      let '(assetAmount, currencyAmount) :=
        (* _.isNumber holds of every value parseFloat returns *)
        if isNaN assetAmount || isNaN currencyAmount
        then (0, 0) else (assetAmount, currencyAmount) in
      Done [ (asset self, assetAmount); (currency self, currencyAmount) ]
    end
  end.

(** ** [buy] and [sell]: the [handle] that receives the placement *)
Definition placement_handle (err : option Error) (result : data placed)
    : reply Error ident :=
  match err with
  | Some e => Fail e
  | None =>
    match view result with
    | None => Thrown TypeError
    | Some r => Done (orderNumber r)
    end
  end.

(** ** [checkOrder]: its [handle] *)
Definition checkOrder_handle (id : ident)
    (err : option Error) (result : data openOrders) : reply Error orderStatus :=
  match err with
  | Some e => Fail e
  | None =>
    match view result with
    | None => Thrown TypeError
    | Some r =>
      if completed_of r then Done (mkStatus true false None)
      else
        match find_reading (fun o => ident_eqb (o_orderNumber o) id)
                (elements r) with
        | Broken => Thrown TypeError
        | Miss =>
            (* if the order is not open it's fully executed *)
            Done (mkStatus true false None)
        | Hit order =>
            Done (mkStatus false true
                    (Some (startingAmount order - o_amount order)))
        end
    end
  end.

(** ** [getOrder]: its [handle] *)
Record orderSummary : Type := mkSummary
  { price : float;
    amount : float;
    date : jsdate }.              (* the argument of [moment(_)] *)

(** The body of the [_.each] callback. *)
Definition accumulate (acc : orderSummary) (t : trade) : orderSummary :=
  mkSummary
    ((price acc * amount acc + rate t * t_amount t) / (t_amount t + amount acc))
    (amount acc + t_amount t)
    (t_date t).

(** [_.each(result, trade => ...)]: the callback reads [trade.date] first,
    which raises a TypeError at an element that is [null] or [undefined]. *)
Fixpoint each_trade (l : list (option trade)) (acc : orderSummary)
    : option orderSummary :=
  match l with
  | [] => Some acc
  | Some t :: rest => each_trade rest (accumulate acc t)
  | None :: _ => None
  end.

(** The [handle] of [getOrder], on what it reads of [result]. *)
Definition getOrder_reads (err : option Error) (result : option orderTrades)
    : reply Error orderSummary :=
  match err with
  | Some e => Fail e
  | None =>
    let start := mkSummary 0 0 (DateAt 0) in
    match result with
    | None => Thrown TypeError
    | Some r =>
      if unfilled r then Done start
      else match each_trade (fills r) start with
           | Some summary => Done summary
           | None => Thrown TypeError
           end
    end
  end.

Definition getOrder_handle (err : option Error) (result : data (list trade))
    : reply Error orderSummary :=
  getOrder_reads err (view result).

(** The same [handle], given an array that may hold [null]. *)
Definition getOrder_handle_sparse (err : option Error)
    (result : data sparseTrades) : reply Error orderSummary :=
  getOrder_reads err (view result).

(** ** [cancelOrder]: its [handle] *)
Definition cancelOrder_handle (err : option Error) (result : data cancelResponse)
    : reply Error bool :=
  match err with
  | Some e => Fail e
  | None =>
    match view result with
    | None => Thrown TypeError
    | Some r =>
      if filled r then Done true
      else if negb (success r) then Done false
      else Done false
    end
  end.

(** ** [findLastTrade]: its [handle] *)

(** One thing a handler does: it calls a callback with some arguments, or
    raises. *)
Inductive event (A : Type) : Type :=
| Call (args : A)
| Raise (what : string).

Arguments Call {A} args.
Arguments Raise {A} what.

(** [moment.utc(o.date) > threshold], with [threshold] the current instant
    minus [since] minutes. *)
Definition recent (since now : Z) (o : openOrder) : bool :=
  let threshold := (now - since * 60000)%Z in
  match o_date o with
  | DateAt t => (threshold <? t)%Z
  | DateLocal wall => (threshold <? wall)%Z
  | DateMissing => (threshold <? now)%Z
  | DateInvalid => false
  end.

(** The [handle] of [findLastTrade(since, callback)], run at instant [now]:
    the calls [callback(err, order)] it makes, in order.  Its first
    statement names [next], which is not bound there; its second does not
    return; the search raises at an element that is [null]. *)
Definition findLastTrade_handle (since now : Z)
    (err : option Error) (result : data openOrders)
    : list (event (option Error * option openOrder)) :=
  match err with
  | Some _ => [ Raise ReferenceError ]
  | None =>
    match view result with
    | None => [ Raise TypeError ]
    | Some r =>
      (if length_falsy r then [ Call (None, None) ] else [])
      ++ [ if (since =? 0)%Z then Call (None, last_of r)
           else match find_reading (recent since now) (elements r) with
                | Broken => Raise TypeError
                | Miss => Call (None, None)
                | Hit order => Call (None, Some order)
                end ]
    end
  end.

(** The order [findLastTrade] found, as the [data] of a placement. *)
Definition as_placement (o : openOrder) : data placed :=
  Body (Json None (mkPlaced (o_orderNumber o))).

(** The timer callback of [processResponse]: [findLastTrade(2, _)] with the
    continuation that turns each answer into a call [next(error, data)]. *)
Definition checkLastTrade (error : Error) (now : Z)
    (err : option Error) (result : data openOrders)
    : list (event (option Error * data placed)) :=
  map (fun ev =>
         match ev with
         | Call (_, Some lastTrade) => Call (None, as_placement lastTrade)
         | Call (_, None) => Call (Some error, Undefined)
         | Raise what => Raise what
         end)
      (findLastTrade_handle 2 now err result).

(** ** The operations, from the request to the caller's callback *)

Local Open Scope string_scope.

(** One answer of the exchange to a request. *)
Record raw (P : Type) : Type := mkRaw { raw_err : rawError; raw_body : body P }.

Arguments mkRaw {P} raw_err raw_body.

(** [fetch = next => this.poloniex.f(..., this.processResponse(next, fn))]
    for an operation that never takes the look-up path. *)
Definition report {P} (self : Trader) (fn : option string) (r : raw P)
    : option (option Error * data P) :=
  match processResponse self fn (raw_err r) (raw_body r) with
  | Next error d => Some (error, d)
  | CheckLastTrade _ _ => None
  end.

(** [retry(null, fetch, handle)]; [cap] is the attempt budget of the
    default policy. *)
Definition call {P R} (self : Trader) (fn : option string) (cap : nat)
    (answers : list (raw P)) (handle : option Error -> data P -> R)
    : option (R * nat) :=
  Retry.retry notFatal cap (map (report self fn) answers) handle.

Definition getPortfolio (self : Trader) cap answers :=
  call self None cap answers (getPortfolio_handle self).

Definition checkOrder (self : Trader) (id : ident) cap answers :=
  call self None cap answers (checkOrder_handle id).

Definition getOrder (self : Trader) cap answers :=
  call self (Some "getOrder") cap answers getOrder_handle.

(** [getOrder], given answers whose arrays may hold [null]. *)
Definition getOrder_sparse (self : Trader) cap answers :=
  call self (Some "getOrder") cap answers getOrder_handle_sparse.

(** An array of trades as a sparse one that holds no [null]. *)
Definition body_as_sparse (d : body (list trade)) : body sparseTrades :=
  match d with
  | Nullish => Nullish
  | Text s => Text s
  | Json error l => Json error (map Some l)
  end.

Definition data_as_sparse (d : data (list trade)) : data sparseTrades :=
  match d with
  | Undefined => Undefined
  | Body b => Body (body_as_sparse b)
  | Unfilled => Unfilled
  | Filled => Filled
  end.

Definition as_sparse (a : raw (list trade)) : raw sparseTrades :=
  mkRaw (raw_err a) (body_as_sparse (raw_body a)).






Definition cancelOrder (self : Trader) cap answers :=
  call self (Some "cancelOrder") cap answers cancelOrder_handle.

(** [findLastTrade]: the open orders are fetched under [retry] and handed
    to the handler [k]. *)
Definition findLastTrade {R} (self : Trader) cap
    (answers : list (raw openOrders))
    (k : option Error -> data openOrders -> R) : option (R * nat) :=
  call self None cap answers k.

(** One placement attempt: the answer to the [buy] / [sell] request and,
    should the look-up run, the instant it runs at and the answers to its
    [returnOpenOrders] requests. *)
Record attempt : Type := mkAttempt
  { answer : raw placed;
    now : Z;
    lookups : list (raw openOrders) }.

Definition placement_report (self : Trader) (policy : nat) (a : attempt)
    : option (option Error * data placed) :=
  match processResponse self (Some "order")
          (raw_err (answer a)) (raw_body (answer a)) with
  | Next error d => Some (error, d)
  | CheckLastTrade _ error =>
      match findLastTrade self policy (lookups a)
              (checkLastTrade error (now a)) with
      | Some ([ Call r ], _) => Some r
      | _ => None
      end
  end.

(** [retry(null, fetch, handle)] of [buy] and [sell] with [cap] attempts
    left; [policy] is the attempt budget of the default policy, which the
    look-ups start from as well.  The number returned counts the placement
    requests sent. *)
Definition place (self : Trader) (policy cap : nat) (attempts : list attempt)
    : option (reply Error ident * nat) :=
  Retry.retry notFatal cap (map (placement_report self policy) attempts)
    placement_handle.

(** [buy] and [sell] differ in the request only. *)
Definition buy (self : Trader) (policy : nat) (attempts : list attempt) :=
  place self policy policy attempts.

Definition sell (self : Trader) (policy : nat) (attempts : list attempt) :=
  place self policy policy attempts.

(** ** [getTicker] *)

(** [this.pair], set by the constructor. *)
Definition pair (self : Trader) : string := currency self ++ "_" ++ asset self.

(** One entry of the ticker: [parseFloat] of its [highestBid] and
    [lowestAsk]. *)
Record tick : Type := mkTick
  { highestBid : float;
    lowestAsk : float }.

(** The ticker: the pairs the exchange lists, each with its entry. *)
Definition ticker : Type := list (string * tick).

#[export] Instance ticker_payload : Payload ticker :=
  {| View := ticker;
     of_json := fun v => v;
     of_text := fun _ => [];
     of_marker := fun _ => [] |}.

(** [data[name]] *)
Fixpoint tick_of (data : ticker) (name : string) : option tick :=
  match data with
  | [] => None
  | (k, t) :: rest => if k =? name then Some t else tick_of rest name
  end.

Record quote : Type := mkQuote
  { bid : float;
    ask : float }.

(** The [handle] of [getTicker]; [tick.highestBid] raises when the pair is
    not listed. *)
Definition getTicker_handle (self : Trader)
    (err : option Error) (result : data ticker) : reply Error quote :=
  match err with
  | Some e => Fail e
  | None =>
    match view result with
    | None => Thrown TypeError
    | Some data =>
      match tick_of data (pair self) with
      | None => Thrown TypeError
      | Some tick => Done (mkQuote (highestBid tick) (lowestAsk tick))
      end
    end
  end.

Definition getTicker (self : Trader) cap answers :=
  call self None cap answers (getTicker_handle self).

(** [findLastTrade(since, callback)] as a whole: what reaches [callback]. *)
Definition findLastTrade_calls (self : Trader) (since now : Z) (cap : nat)
    (answers : list (raw openOrders)) :=
  findLastTrade self cap answers (findLastTrade_handle since now).

End Poloniex.

(* ------------------------------------------------------------------ *)
(** * Binance adapter *)
(* ------------------------------------------------------------------ *)

Module Binance.

Local Open Scope string_scope.

(** The alternatives of the regular expression [recoverableErrors]; a
    message matches when one of them occurs in it. *)
Definition recoverableErrors : list string :=
  [ "SOCKETTIMEDOUT"; "TIMEDOUT"; "CONNRESET"; "CONNREFUSED"; "NOTFOUND";
    "Error -1021"; "Response code 429"; "Response code 5" ].

Definition matches (msg : string) : bool :=
  existsb (fun alt => str_includes msg alt) recoverableErrors.

(** Modelled from the spec: the two error classes of
    [exchange/exchangeErrors], which is not among the sources.  An
    [AbortError] is the fatal error of section 7, a [RetryError] its
    retryable error. *)
Inductive exchangeError : Type :=
| AbortError (msg : string)
| RetryError (msg : string).

(** [processError(funcName, error)], [error] being absent or an [Error] with
    the given message. *)
Definition processError (funcName : string) (error : option string)
    : option exchangeError :=
  match error with
  | None => None
  | Some msg =>
      if (msg =? "") || negb (matches msg)
      then Some (AbortError ("[binance.js] " ++ msg))
      else Some (RetryError ("[binance.js] " ++ msg))
  end.

(** A response body: [code] is 0 when the body has no truthy [code]. *)
Record body (P : Type) : Type := mkBody
  { code : Z;
    msg : string;
    payload : P }.

Definition decimal (z : Z) : string :=
  DecimalString.NilEmpty.string_of_int (Z.to_int z).

(** [handleResponse(funcName, callback)]: what the closure passes to
    [callback]. *)
Definition handleResponse {P} (funcName : string)
    (error : option string) (b : option (body P))
    : option exchangeError * option (body P) :=
  let error :=
    match b with
    | Some bd =>
        if (code bd =? 0)%Z then error
        else Some ("Error " ++ decimal (code bd) ++ ": " ++ msg bd)
    | None => error
    end in
  (processError funcName error, b).

Local Open Scope float_scope.

(** ** Rounding to the tick size *)

(** [Math.round(tickSize * e) / e === tickSize] *)
Definition exact_at (tickSize e : float) : bool :=
  Js.round (tickSize * e) / e =? tickSize.

(** The [while] loop of [getPrecision]; [fuel] bounds its iterations. *)
Fixpoint getPrecision_loop (fuel : nat) (tickSize e : float) (p : nat)
    : option nat :=
  match fuel with
  | O => None
  | S fuel' =>
      if negb (exact_at tickSize e)
      then getPrecision_loop fuel' tickSize (e * 10) (S p)
      else Some p
  end.

(** Effectively counts the number of decimal places, so 0.001 or 0.234
    results in 3. *)
Definition getPrecision (fuel : nat) (tickSize : float) : option nat :=
  if negb (isFinite tickSize) then Some O
  else getPrecision_loop fuel tickSize 1 O.

(** [round(amount, tickSize)]; [t] is an integer whenever the loop ends, so
    [precision] is [Math.pow(10, t)], computed by the engine ([approx]). *)
Definition round (approx : nat -> float) (fuel : nat) (amount tickSize : float)
    : option float :=
  match getPrecision fuel tickSize with
  | None => None
  | Some t =>
      let precision := Math_pow10 approx t in
      Some (floor (amount * precision) / precision)
  end.

Record minimalOrder : Type := mkMinimalOrder
  { m_amount : float;
    m_price : float;
    m_order : float }.

Definition roundAmount (approx : nat -> float) (fuel : nat)
    (market : minimalOrder) (amount : float) :=
  round approx fuel amount (m_amount market).

Definition roundPrice (approx : nat -> float) (fuel : nat)
    (market : minimalOrder) (price : float) :=
  round approx fuel price (m_price market).

(** ** [checkOrder]: the [check] that receives the queried order *)
Record order : Type := mkOrder
  { status : string;
    executedQty : float }.        (* +data.executedQty *)

Definition status_in (st : string) (l : list string) : bool :=
  existsb (String.eqb st) l.

Definition recognised : list string :=
  [ "CANCELED"; "REJECTED"; "EXPIRED"; "NEW"; "PARTIALLY_FILLED"; "FILLED" ]%string.

Definition check (err : option exchangeError) (data : option (body order))
    : reply exchangeError orderStatus :=
  match err with
  | Some e => Fail e
  | None =>
    match option_map (@payload order) data with
    | None => Thrown "TypeError"%string
    | Some d =>
      if status_in (status d) [ "CANCELED"; "REJECTED"; "EXPIRED" ]%string then
        Done (mkStatus false false None)
      else if status_in (status d) [ "NEW"; "PARTIALLY_FILLED" ]%string then
        Done (mkStatus false true (Some (executedQty d)))
      else if (status d =? "FILLED")%string then
        Done (mkStatus true false None)
      else
        (* console.log('what status?', status); throw status; *)
        Thrown (status d)
    end
  end.

(** Modelled from the spec: which of the two classes the scheduler retries
    (section 7). *)
Definition retryable (e : exchangeError) : bool :=
  match e with
  | RetryError _ => true
  | AbortError _ => false
  end.

(** [checkOrder]: [retry(retryCritical, fetcher, check)], [cap] being the
    attempt budget of [retryCritical]. *)
Definition checkOrder (cap : nat)
    (answers : list (option string * option (body order)))
    : option (reply exchangeError orderStatus * nat) :=
  Retry.retry retryable cap
    (map (fun a => Some (handleResponse "checkOrder" (fst a) (snd a))) answers)
    check.

(** ** The adapter instance and its requests *)

(** [this.currency] and [this.asset], as the constructor stores them. *)
Record Trader : Type := mkTrader
  { currency : string;
    asset : string }.

(** [this.pair = this.asset + this.currency] *)
Definition pair (self : Trader) : string := (asset self ++ currency self)%string.

(** What a handler passes to [callback] as its error: the classified error it
    received, or an [Error] it builds itself. *)
Inductive failure : Type :=
| Classified (e : exchangeError)
| Plain (message : string).

(** [retry(retryForever, handler, k)] *)
Definition request_forever {P R} (funcName : string)
    (answers : list (option string * option (body P)))
    (k : option exchangeError -> option (body P) -> R) : option (R * nat) :=
  Retry.retry_forever retryable
    (map (fun a => Some (handleResponse funcName (fst a) (snd a))) answers) k.

(** ** [getTrades] *)

Record aggTrade : Type := mkAggTrade
  { aggTradeId : Z;
    timestamp : Z;                (* milliseconds *)
    a_price : float;              (* parseFloat(trade.price) *)
    quantity : float }.           (* parseFloat(trade.quantity) *)

Record parsedTrade : Type := mkParsedTrade
  { tid : Z;
    date : Z;                     (* seconds *)
    price : float;
    amount : float }.

(** [moment(ms).unix()] *)
Definition unix (ms : Z) : Z := (ms / 1000)%Z.

Definition parseTrade (t : aggTrade) : parsedTrade :=
  mkParsedTrade (aggTradeId t) (unix (timestamp t)) (a_price t) (quantity t).

(** [processResults]; [_.each] visits nothing when [data] is undefined. *)
Definition processResults (descending : bool)
    (err : option exchangeError) (data : option (body (list aggTrade)))
    : reply exchangeError (list parsedTrade) :=
  match err with
  | Some e => Fail e
  | None =>
      let parsedTrades :=
        map parseTrade (match data with Some b => payload b | None => [] end) in
      if descending then Done (rev parsedTrades) else Done parsedTrades
  end.

Record tradesRequest : Type := mkTradesRequest
  { r_symbol : string;
    startTime : option Z;
    endTime : option Z }.

(** [reqData] of [getTrades], built at instant [now]; [since] is [None] when
    the argument is falsy. *)
Definition reqData (self : Trader) (since : option Z) (now : Z) : tradesRequest :=
  match since with
  | None => mkTradesRequest (pair self) None None
  | Some s =>
      let endTs := (s + 3600000)%Z in
      mkTradesRequest (pair self) (Some s)
        (Some (if (now <? endTs)%Z then now else endTs))
  end.

(** ** [getPortfolio]: its [setBalance] *)

Record balance : Type := mkBalance
  { b_asset : string;
    free : float }.               (* parseFloat(item.free) *)

Definition find_balance (balances : list balance) (name : string) : option balance :=
  find (fun item => (b_asset item =? name)%string) balances.

(** [setBalance]: [_.find(...).free] raises when the name is not listed, and
    so does each assignment to the [const] amounts. *)
Definition setBalance (self : Trader)
    (err : option exchangeError) (data : option (body (list balance)))
    : reply exchangeError (list (string * float)) :=
  match err with
  | Some e => Fail e
  | None =>
    match data with
    | None => Thrown "TypeError"%string
    | Some b =>
      match find_balance (payload b) (asset self) with
      | None => Thrown "TypeError"%string
      | Some a =>
        match find_balance (payload b) (currency self) with
        | None => Thrown "TypeError"%string
        | Some c =>
          if isNaN (free a) then Thrown "TypeError"%string
          else if isNaN (free c) then Thrown "TypeError"%string
          else Done [ (asset self, free a); (currency self, free c) ]
        end
      end
    end
  end.

(** ** [getTicker]: its [setTicker] *)

Record bookTicker : Type := mkBookTicker
  { symbol : string;
    askPrice : float;             (* parseFloat(result.askPrice) *)
    bidPrice : float }.           (* parseFloat(result.bidPrice) *)

Record quote : Type := mkQuote
  { ask : float;
    bid : float }.

Definition setTicker (self : Trader)
    (err : option exchangeError) (data : option (body (list bookTicker)))
    : reply failure quote :=
  match err with
  | Some e => Fail (Classified e)
  | None =>
    match find (fun ticker => (symbol ticker =? pair self)%string)
               (match data with Some b => payload b | None => [] end) with
    | None =>
        Fail (Plain ("Market " ++ pair self ++ " not found on Binance")%string)
    | Some result => Done (mkQuote (askPrice result) (bidPrice result))
    end
  end.

(** ** [isValidPrice], [isValidLot] *)

Definition isValidPrice (market : minimalOrder) (price : float) : bool :=
  m_price market <=? price.

Definition isValidLot (market : minimalOrder) (price amount : float) : bool :=
  m_order market <=? amount * price.

(** ** [getOrder]: its [get] *)

(** One of the account's trades; identifiers are compared with [==], as
    numbers. *)
Record myTrade : Type := mkMyTrade
  { orderId : Z;
    t_price : float;              (* parseFloat(trade.price) *)
    qty : float;                  (* parseFloat(trade.qty) *)
    time : Z;
    commissionAsset : string;
    commission : float }.         (* +trade.commission *)

Record fill : Type := mkFill
  { f_price : float;
    f_amount : float;
    f_date : Z;                   (* the argument of [moment(_)] *)
    fees : string * float }.

Definition fill_of (trade : myTrade) : fill :=
  mkFill (t_price trade) (qty trade) (time trade)
    (commissionAsset trade, commission trade).

Definition get (order : Z)
    (err : option exchangeError) (data : option (body (list myTrade)))
    : reply failure fill :=
  match err with
  | Some e => Fail (Classified e)
  | None =>
    match find (fun t => (orderId t =? order)%Z)
               (match data with Some b => payload b | None => [] end) with
    | None => Fail (Plain "Trade not found")
    | Some trade => Done (fill_of trade)
    end
  end.

(** ** [cancelOrder]: its [cancel] *)

(** callback for cancelOrder should be true if the order was already filled,
    otherwise false *)
Definition cancel {P} (err : option exchangeError) (data : option (body P))
    : reply exchangeError bool :=
  match err with
  | Some e =>
      match data with
      | Some b =>
          if (msg b =? "UNKNOWN_ORDER")%string then Done true else Fail e
      | None => Fail e
      end
  | None => Done false
  end.

Definition cancelOrder {P} (answers : list (option string * option (body P)))
    : option (reply exchangeError bool * nat) :=
  request_forever "cancelOrder" answers cancel.

End Binance.

(* ------------------------------------------------------------------ *)
(** * Sample inputs *)
(* ------------------------------------------------------------------ *)

Module Samples.

Import Poloniex.
Local Open Scope string_scope.

Definition trader : Trader := mkTrader "BTC" "ETH" (Some 1500%Z).

(** Another instance, for another pair, that was given no interval. *)
Definition other_trader : Trader := mkTrader "USDT" "BTC" None.

(** The exchange answers that it does not know the order. *)
Definition not_found {P} : raw P :=
  mkRaw (ErrorText order_not_found) Nullish.

(** The request timed out on the socket. *)
Definition socket_timeout {P} : raw P :=
  mkRaw (ErrorObject "Error" "ESOCKETTIMEDOUT") Nullish.

(** Two open orders; 0.25 of the second has been filled. *)
Definition book : list openOrder :=
  [ mkOpenOrder (IdText "120466") (DateAt 1522584000000) 2 2;
    mkOpenOrder (IdText "120467") (DateAt 1522584060000) 1 0.75 ]%float.

(** A placement whose request times out while connecting; when the look-up
    runs, the exchange lists the two orders of [book], both hours old. *)
Definition timed_out : attempt :=
  mkAttempt
    (mkRaw (ErrorObject "Error" "connect ETIMEDOUT 104.20.12.48:443") Nullish)
    1522598400000
    [ mkRaw NoError (Json None (OrderArray book)) ].

(** The same, the look-up running while the orders of [book] are less than
    two minutes old. *)
Definition timed_out_placed : attempt :=
  mkAttempt
    (mkRaw (ErrorObject "Error" "connect ETIMEDOUT 104.20.12.48:443") Nullish)
    1522584080000
    [ mkRaw NoError (Json None (OrderArray book)) ].

(** A placement the exchange accepts as order 42. *)
Definition accepted : attempt :=
  mkAttempt (mkRaw NoError (Json None (mkPlaced (IdNum 42)))) 1522598460000 [].

(** The exchange answers a cancellation with [{ success: 0 }] and no error. *)
Definition cancel_refused : raw cancelResponse :=
  mkRaw NoError (Json None (mkCancelResponse false)).



(** Balances that list the asset only. *)
Definition asset_only : raw balances :=
  mkRaw NoError (Json None [ ("ETH"%string, 1.5%float) ]).

Definition market : Binance.minimalOrder :=
  Binance.mkMinimalOrder 0.001 0.01 10.

(** A ticker that lists two pairs. *)
Definition tickers : ticker :=
  [ ("BTC_LTC"%string, mkTick 0.0251 0.0252);
    ("BTC_ETH"%string, mkTick 0.0712 0.0713) ]%float.

Definition binance_trader : Binance.Trader := Binance.mkTrader "BTC" "ETH".

(** The account's last trades: order 7 was filled in two parts. *)
Definition my_trades : list Binance.myTrade :=
  [ Binance.mkMyTrade 5 0.07 1 1522584000000 "BNB" 0.001;
    Binance.mkMyTrade 7 0.0712 2 1522584060000 "BNB" 0.002;
    Binance.mkMyTrade 7 0.0713 3 1522584061000 "BNB" 0.003 ]%float.

(** Binance answers a cancellation: the order is unknown. *)
Definition unknown_order : option string * option (Binance.body unit) :=
  (None, Some (Binance.mkBody (-2011) "UNKNOWN_ORDER" tt)).

(** Binance reports an order whose cancellation is pending. *)
Definition pending_cancel : option string * option (Binance.body Binance.order) :=
  (None, Some (Binance.mkBody 0 "" (Binance.mkOrder "PENDING_CANCEL" 0))).

Definition filled_order : Binance.body Binance.order :=
  Binance.mkBody 0 "" (Binance.mkOrder "FILLED" 2).

(** Binance reports an order that was cancelled before any fill. *)
Definition cancelled_order : Binance.body Binance.order :=
  Binance.mkBody 0 "" (Binance.mkOrder "CANCELED" 0).

End Samples.

(* ------------------------------------------------------------------ *)
(** * Properties *)
(* ------------------------------------------------------------------ *)

Import Poloniex.

(** ** Substring search *)

Lemma prefix_app (t s : string) :
  String.prefix t s = true <-> exists b, s = (t ++ b)%string.
Proof.
  revert s; induction t as [| c t IH]; intros s; simpl.
  - destruct s; simpl; split; eauto.
  - destruct s as [| c' s]; simpl.
    + split; [discriminate | intros [b Hb]; discriminate].
    + destruct (ascii_dec c c') as [-> | Hne].
      * rewrite IH. split; intros [b Hb]; exists b; congruence.
      * split; [discriminate | intros [b Hb]; congruence].
Qed.

Lemma str_includes_unfold (s t : string) :
  str_includes s t =
  if String.prefix t s then true
  else match s with
       | EmptyString => false
       | String _ rest => str_includes rest t
       end.
Proof. destruct s; reflexivity. Qed.

(** [str_includes s t] holds exactly when [t] occurs in [s]. *)
Lemma str_includes_spec (s t : string) :
  str_includes s t = true <-> exists a b, s = (a ++ t ++ b)%string.
Proof.
  induction s as [| c s IH]; rewrite str_includes_unfold;
    match goal with |- context [String.prefix t ?u] =>
      destruct (String.prefix t u) eqn:Hp end.
  - split; [intros _ | reflexivity].
    apply prefix_app in Hp as [b Hb]. exists ""%string, b. exact Hb.
  - split; [discriminate |]. intros [a [b Hab]].
    destruct a; simpl in Hab; [| discriminate].
    assert (String.prefix t "" = true) by (apply prefix_app; eauto).
    congruence.
  - split; [intros _ | reflexivity].
    apply prefix_app in Hp as [b Hb]. exists ""%string, b. exact Hb.
  - rewrite IH. split.
    + intros [a [b Hab]]. exists (String c a), b. simpl. congruence.
    + intros [a [b Hab]]. destruct a as [| c' a]; simpl in Hab.
      * assert (String.prefix t (String c s) = true)
          by (apply prefix_app; eauto).
        congruence.
      * exists a, b. congruence.
Qed.

Lemma includes_iff (msg : string) (signatures : list string) :
  includes (Some msg) signatures = true <->
  exists S, In S signatures /\ str_includes msg S = true.
Proof. unfold includes. apply existsb_exists. Qed.

(** ** What [detect] can return *)

Ltac case_ifs :=
  repeat match goal with
         | |- context [if ?c then _ else _] => destruct c
         end.

Lemma detect_success {P} (err : rawError) (d : body P) (dt : data P) :
  detect err d = (None, dt) -> dt = Body d /\ body_truthy d = true.
Proof.
  unfold detect.
  destruct (err_truthy err); [discriminate |].
  destruct (body_truthy d) eqn:Ht; simpl; [| discriminate].
  destruct (body_error d); [discriminate |].
  case_ifs; try discriminate.
  intros [= <-]. auto.
Qed.

Lemma detect_notFatal {P} (err : rawError) (d : body P) e0 (dt : data P) :
  detect err d = (Some e0, dt) ->
  notFatal e0 = true -> message e0 = try_again.
Proof.
  unfold detect.
  destruct (err_truthy err); [intros [= <- _]; discriminate |].
  destruct (negb (body_truthy d)); [intros [= <- _]; discriminate |].
  destruct (body_error d); [intros [= <- _]; discriminate |].
  case_ifs; intros [= <- _]; simpl; try discriminate; auto.
Qed.

Lemma mark_message (e : Error) : message (mark e) = message e.
Proof. unfold mark. destruct (includes _ _); reflexivity. Qed.

Lemma mark_notFatal (e : Error) :
  notFatal (mark e) = notFatal e || includes (Some (message e)) recoverableErrors.
Proof.
  unfold mark. destruct (includes _ _); simpl;
    [rewrite orb_true_r | rewrite orb_false_r]; reflexivity.
Qed.

(** ** Classification of errors *)

(** C6, as the code has it.  Each adapter has its own table.  On Poloniex an
    error whose message contains one of SOCKETTIMEDOUT, TIMEDOUT, CONNRESET,
    CONNREFUSED, NOTFOUND, 429, 522, 504, 503, 500, 502, "Empty response",
    "Please try again in a few minutes." or "Nonce must be greater than" is
    marked retryable ([notFatal]) unless an operation-specific override
    applies, and an error whose message contains none of them is fatal.  On
    Binance an error is a [RetryError] exactly when its message contains one
    of SOCKETTIMEDOUT, TIMEDOUT, CONNRESET, CONNREFUSED, NOTFOUND,
    "Error -1021", "Response code 429" or "Response code 5", and an
    [AbortError] otherwise: the messages "Please try again in a few
    minutes.", "Empty response", "Nonce must be greater than" and a bare 429,
    500, 502, 503, 504 or 522 are fatal there. *)
Theorem recoverable_signatures_retryable
    (P : Type) (self : Trader) (fn : option string)
    (err : rawError) (d : body P) (e0 : Error) (dt : data P)
    (funcName msg : string) :
  detect err d = (Some e0, dt) ->
  fn_is fn "getOrder" && str_includes (message e0) order_not_found = false ->
  fn_is fn "cancelOrder" && str_includes (message e0) invalid_order_number = false ->
  fn_is fn "order" && includes (Some (message e0)) unknownResultErrors = false ->
  (exists e,
      processResponse self fn err d = Next (Some e) dt
      /\ message e = message e0
      /\ (notFatal e = true <->
          exists S,
            In S [ "SOCKETTIMEDOUT"; "TIMEDOUT"; "CONNRESET"; "CONNREFUSED";
                   "NOTFOUND"; "429"; "522"; "504"; "503"; "500"; "502";
                   "Empty response"; "Please try again in a few minutes.";
                   "Nonce must be greater than" ]%string
            /\ str_includes (message e0) S = true)
      /\ classify (processResponse self fn err d) =
           if notFatal e then RetryableError (message e0)
           else FatalError (message e0))
  /\ ((exists S,
         In S [ "SOCKETTIMEDOUT"; "TIMEDOUT"; "CONNRESET"; "CONNREFUSED";
                "NOTFOUND"; "Error -1021"; "Response code 429";
                "Response code 5" ]%string
         /\ str_includes msg S = true) ->
      Binance.processError funcName (Some msg) =
        Some (Binance.RetryError ("[binance.js] " ++ msg)))
  /\ ((forall S,
         In S [ "SOCKETTIMEDOUT"; "TIMEDOUT"; "CONNRESET"; "CONNREFUSED";
                "NOTFOUND"; "Error -1021"; "Response code 429";
                "Response code 5" ]%string ->
         str_includes msg S = false) ->
      Binance.processError funcName (Some msg) =
        Some (Binance.AbortError ("[binance.js] " ++ msg)))
  /\ (forall S,
        In S [ "Please try again in a few minutes."; "Empty response";
               "Nonce must be greater than";
               "429"; "500"; "502"; "503"; "504"; "522" ]%string ->
        Binance.processError funcName (Some S) =
          Some (Binance.AbortError ("[binance.js] " ++ S))).
Proof.
  intros Hd Hget Hcancel Horder. split; [| split; [| split]].
  - exists (mark e0). unfold processResponse. rewrite Hd.
    rewrite !mark_message, Hget, Hcancel, Horder.
    split; [reflexivity |]. split; [reflexivity |]. split; [split |].
    + rewrite mark_notFatal. intros H. apply orb_true_iff in H as [H | H].
      * exists try_again. rewrite (detect_notFatal _ _ Hd H).
        split; [unfold try_again; simpl; tauto | reflexivity].
      * apply (includes_iff (message e0) recoverableErrors). exact H.
    + intros H. rewrite mark_notFatal.
      apply (includes_iff (message e0) recoverableErrors) in H. rewrite H.
      apply orb_true_r.
    + simpl. rewrite mark_message. reflexivity.
  - intros H. unfold Binance.processError.
    assert (Hm : Binance.matches msg = true)
      by (unfold Binance.matches, Binance.recoverableErrors;
          apply existsb_exists; exact H).
    rewrite Hm. destruct (String.eqb_spec msg ""%string) as [-> | _].
    + discriminate Hm.
    + reflexivity.
  - intros H. unfold Binance.processError.
    assert (Hm : Binance.matches msg = false).
    { unfold Binance.matches, Binance.recoverableErrors.
      apply not_true_is_false. intros Hex.
      apply existsb_exists in Hex as [S [HS Hin]]. rewrite (H S HS) in Hin.
      discriminate. }
    rewrite Hm, orb_true_r. reflexivity.
  - intros S HS. simpl in HS.
    repeat (destruct HS as [<- | HS]; [reflexivity |]). destruct HS.
Qed.

Lemma recoverable_signatures_retryable_witness :
  (exists e,
      processResponse Samples.trader None
        (raw_err (@Samples.socket_timeout openOrders))
        (raw_body (@Samples.socket_timeout openOrders)) = Next (Some e) (Body Nullish)
      /\ message e = "Error: ESOCKETTIMEDOUT"%string
      /\ notFatal e = true)
  /\ Binance.processError "getTrades" (Some "Response code 502"%string)
     = Some (Binance.RetryError ("[binance.js] " ++ "Response code 502")).
Proof.
  destruct (@recoverable_signatures_retryable openOrders Samples.trader None
              (raw_err (@Samples.socket_timeout openOrders))
              (raw_body (@Samples.socket_timeout openOrders))
              (mkError "Error: ESOCKETTIMEDOUT" false) (Body Nullish)
              "getTrades"%string "Response code 502"%string
              eq_refl eq_refl eq_refl eq_refl)
    as [[e [Hp [Hm [Hnf _]]]] [Hretry _]].
  split.
  - exists e. split; [exact Hp |]. split; [exact Hm |].
    apply Hnf. exists "SOCKETTIMEDOUT"%string.
    split; [simpl; tauto | reflexivity].
  - apply Hretry. exists "Response code 5"%string.
    split; [simpl; tauto | reflexivity].
Defined.

(** C6 as stated fails on Binance: an error that says "Please try again in a
    few minutes.", which Poloniex retries, is an [AbortError] there, and so
    are an empty response, a nonce that is too low and a 429 or a 503 that
    does not read "Response code ...". *)
Lemma binance_try_again_is_fatal :
  Binance.processError "getTicker" (Some "Please try again in a few minutes."%string)
  = Some (Binance.AbortError "[binance.js] Please try again in a few minutes.")
  /\ classify (@processResponse ticker Samples.trader None
                 (ErrorText "Please try again in a few minutes.") Nullish)
     = RetryableError "Please try again in a few minutes."%string
  /\ Binance.processError "getTicker" (Some "Empty response"%string)
     = Some (Binance.AbortError "[binance.js] Empty response")
  /\ Binance.processError "getTicker"
       (Some "Nonce must be greater than 17. You provided 3."%string)
     = Some (Binance.AbortError
               "[binance.js] Nonce must be greater than 17. You provided 3.")
  /\ Binance.processError "getTicker" (Some "429 Too Many Requests"%string)
     = Some (Binance.AbortError "[binance.js] 429 Too Many Requests")
  /\ Binance.processError "getTicker" (Some "503 Service Unavailable"%string)
     = Some (Binance.AbortError "[binance.js] 503 Service Unavailable").
Proof. repeat split. Qed.

(** ** The scheduler on the first answer *)

Lemma call_cons {P R} (self : Trader) (fn : option string) (cap : nat)
    (a : raw P) (rest : list (raw P)) (handle : option Error -> data P -> R) :
  call self fn (S cap) (a :: rest) handle =
  match processResponse self fn (raw_err a) (raw_body a) with
  | Next None dt => Some (handle None dt, 1%nat)
  | Next (Some e) dt =>
      if notFatal e then
        match cap with
        | O => Some (handle (Some e) dt, 1%nat)
        | S _ => Retry.bump (call self fn cap rest handle)
        end
      else Some (handle (Some e) dt, 1%nat)
  | CheckLastTrade _ _ => None
  end.
Proof.
  unfold call, report. simpl.
  destruct (processResponse self fn (raw_err a) (raw_body a)) as [[e |] dt | ? ?];
    reflexivity.
Qed.

Lemma find_reading_orders {A} (test : A -> bool) (l : list A) :
  find_reading test (map Some l)
  = match find test l with Some x => Hit x | None => Miss end.
Proof.
  induction l as [| x l IH]; [reflexivity |].
  simpl. destruct (test x); [reflexivity | exact IH].
Qed.

Lemma find_reading_blanks {A} (test : A -> bool) (x : A) (n : nat) :
  find_reading test (repeat (Some x) n) <> Broken.
Proof.
  induction n as [| n IH]; simpl; [discriminate |].
  destruct (test x); [discriminate | exact IH].
Qed.

Lemma each_trade_fills (l : list trade) (acc : orderSummary) :
  each_trade (map Some l) acc = Some (fold_left accumulate l acc).
Proof.
  revert acc. induction l as [| t l IH]; intros acc; [reflexivity |].
  simpl. apply IH.
Qed.

(** The reduction of [getOrder] raises exactly when the array holds a
    [null]. *)
Lemma each_trade_raises (l : list (option trade)) (acc : orderSummary) :
  each_trade l acc = None <-> In None l.
Proof.
  revert acc. induction l as [| [t |] l IH]; intros acc; simpl.
  - split; [discriminate | tauto].
  - rewrite IH. split; [auto | intros [H | H]; [discriminate | exact H]].
  - split; auto.
Qed.

Lemma each_trade_blanks (n : nat) (acc : orderSummary) :
  each_trade (repeat (Some blank_trade) n) acc <> None.
Proof.
  rewrite each_trade_raises. intros H. apply repeat_spec in H. discriminate.
Qed.

(** A response that [processResponse] passes on without error can be read as
    an object: it is a truthy body or a marker. *)
Lemma success_has_view {P} `{Payload P} (self : Trader) (fn : option string)
    (err : rawError) (d : body P) (dt : data P) :
  processResponse self fn err d = Next None dt -> view dt <> None.
Proof.
  unfold processResponse. destruct (detect err d) as [[e0 |] dt0] eqn:Hd.
  - case_ifs; intros [= <-]; discriminate.
  - intros [= <-]. apply detect_success in Hd as [-> Ht].
    destruct d as [| s | e v]; simpl in *; discriminate.
Qed.

(** What is passed on without error is one of the two markers or the body
    itself, which then came without error, is truthy and has no truthy
    [error] property. *)
Lemma processResponse_success {P} (self : Trader) (fn : option string)
    (err : rawError) (d : body P) (dt : data P) :
  processResponse self fn err d = Next None dt ->
  dt = Unfilled \/ dt = Filled
  \/ (dt = Body d /\ err_truthy err = false /\ body_truthy d = true
      /\ body_error d = None).
Proof.
  unfold processResponse. destruct (detect err d) as [[e0 |] dt0] eqn:Hd.
  - case_ifs; intros [= <-]; auto.
  - intros [= <-]. right. right. revert Hd. unfold detect.
    destruct (err_truthy err); [discriminate |].
    destruct (body_truthy d); simpl; [| discriminate].
    destruct (body_error d); [discriminate |].
    case_ifs; try discriminate. intros [= <-]. auto.
Qed.

(** Only a placement (fn = 'order') is ever deferred to the look-up. *)
Lemma processResponse_reports {P} (self : Trader) (fn : option string)
    (err : rawError) (d : body P) :
  fn_is fn "order" = false ->
  exists error dt, processResponse self fn err d = Next error dt.
Proof.
  intros Hfn. unfold processResponse.
  destruct (detect err d) as [[e0 |] dt]; [| eauto].
  rewrite Hfn. cbn [andb]. case_ifs; eauto.
Qed.

(** Given as many answers as the budget allows, an operation hands the
    outcome of one of them to its handler, within the budget. *)
Lemma call_ends {P R} (self : Trader) (fn : option string)
    (handle : option Error -> data P -> R) :
  fn_is fn "order" = false ->
  forall (cap : nat) (answers : list (raw P)),
    (1 <= cap <= List.length answers)%nat ->
    exists n a error dt,
      (1 <= n <= cap)%nat
      /\ nth_error answers (n - 1) = Some a
      /\ processResponse self fn (raw_err a) (raw_body a) = Next error dt
      /\ call self fn cap answers handle = Some (handle error dt, n).
Proof.
  intros Hfn cap. induction cap as [| cap IH]; intros answers Hcap; [lia |].
  destruct answers as [| a rest]; [simpl in Hcap; lia |].
  rewrite call_cons.
  destruct (@processResponse_reports P self fn (raw_err a) (raw_body a) Hfn)
    as [error [dt Hp]].
  rewrite Hp.
  assert (Hone : exists n a0 error0 dt0,
             (1 <= n <= S cap)%nat
             /\ nth_error (a :: rest) (n - 1) = Some a0
             /\ processResponse self fn (raw_err a0) (raw_body a0)
                = Next error0 dt0
             /\ Some (handle error dt, 1%nat) = Some (handle error0 dt0, n)).
  { exists 1%nat, a, error, dt. repeat split; auto; lia. }
  destruct error as [e |]; [| exact Hone].
  destruct (notFatal e); [| exact Hone].
  destruct cap as [| cap]; [exact Hone |].
  destruct (IH rest) as [n [a0 [error0 [dt0 [Hn [Hnth [Hp0 Hcall]]]]]]].
  { simpl in Hcap. lia. }
  exists (S n), a0, error0, dt0. rewrite Hcall.
  repeat split; try lia; auto.
  replace (S n - 1)%nat with (S (n - 1)) by lia. exact Hnth.
Qed.

(** Such an operation, when its handler passes every error on, ends in its
    callback unless the handler raises on the answer it finally reads. *)
Lemma call_calls_back_or_raises {P A} (self : Trader) (fn : option string)
    (handle : option Error -> data P -> reply Error A) :
  fn_is fn "order" = false ->
  (forall e dt, handle (Some e) dt = Fail e) ->
  forall (cap : nat) (answers : list (raw P)),
    (1 <= cap <= List.length answers)%nat ->
    Retry.calls_back cap (call self fn cap answers handle)
    \/ exists n a dt what,
         (1 <= n <= cap)%nat
         /\ nth_error answers (n - 1) = Some a
         /\ processResponse self fn (raw_err a) (raw_body a) = Next None dt
         /\ handle None dt = Thrown what
         /\ call self fn cap answers handle = Some (Thrown what, n).
Proof.
  intros Hfn Herr cap answers Hcap.
  destruct (@call_ends P _ self fn handle Hfn cap answers Hcap)
    as [n [a [error [dt [Hn [Hnth [Hp Hcall]]]]]]].
  rewrite Hcall. destruct error as [e |].
  - left. rewrite Herr. exact Hn.
  - destruct (handle None dt) as [e | r | what] eqn:Hh.
    + left. exact Hn.
    + left. exact Hn.
    + right. exists n, a, dt, what. auto.
Qed.

(** ** Order not found *)

(** C2, as the code has it.  On the get-order path ([processResponse] with
    [fn = 'getOrder'], which [getOrder] uses for the trades of an order) every
    raw response whose error message contains "Order not found, or you are not
    the person who placed it." is handed on as a success that carries the
    marker [{ unfilled: true }], never as an error, and [getOrder] reports
    price 0, amount 0 and the epoch to its caller. *)
Theorem getOrder_not_found_is_unfilled
    (self : Trader) (err : rawError) (d : body (list trade))
    (e0 : Error) (dt : data (list trade))
    (cap : nat) (rest : list (raw (list trade))) :
  detect err d = (Some e0, dt) ->
  str_includes (message e0) order_not_found = true ->
  processResponse self (Some "getOrder"%string) err d = Next None Unfilled
  /\ getOrder self (S cap) (mkRaw err d :: rest)
     = Some (Done (mkSummary 0 0 (DateAt 0)), 1%nat).
Proof.
  intros Hd Hinc.
  assert (Hp : processResponse self (Some "getOrder"%string) err d
               = Next None Unfilled).
  { unfold processResponse. rewrite Hd, mark_message, Hinc. reflexivity. }
  split; [exact Hp |].
  unfold getOrder. rewrite call_cons. simpl raw_err. simpl raw_body.
  rewrite Hp. reflexivity.
Qed.

Lemma getOrder_not_found_is_unfilled_witness :
  processResponse Samples.trader (Some "getOrder"%string)
    (ErrorText order_not_found) (@Nullish (list trade)) = Next None Unfilled
  /\ getOrder Samples.trader 3 [ Samples.not_found ]
     = Some (Done (mkSummary 0 0 (DateAt 0)), 1%nat).
Proof.
  exact (@getOrder_not_found_is_unfilled Samples.trader
           (ErrorText order_not_found) Nullish
           (mkError order_not_found false) (Body Nullish) 2 []
           eq_refl eq_refl).
Defined.

(** C2 as stated fails: [checkOrder] calls [processResponse] without [fn],
    so the same answer reaches its caller as an error. *)
Lemma checkOrder_not_found_is_error :
  processResponse Samples.trader None
    (ErrorText order_not_found) (@Nullish openOrders)
  = Next (Some (mkError order_not_found false)) (Body Nullish)
  /\ checkOrder Samples.trader (IdNum 7) 3 [ Samples.not_found ]
     = Some (Fail (mkError order_not_found false), 1%nat).
Proof. split; reflexivity. Qed.

(** ** Cancellation *)

(** C3, as the code has it.  [cancelOrder] resolves to one boolean or to an
    error: a response that carries no error gives [false], whether its
    [success] flag is set or not; a response whose error message contains
    "Invalid order number, or you are not the person who placed the order."
    gives [true]; any other response that carries an error is never turned
    into [false]: a fatal one reaches the caller as that error at once, a
    retryable one makes the scheduler ask again and reaches the caller as that
    error when the budget is spent. *)
Theorem cancelOrder_filled_flag
    (self : Trader) (err : rawError) (d : body cancelResponse)
    (cap : nat) (rest : list (raw cancelResponse)) :
  match detect err d with
  | (None, _) =>
      cancelOrder self (S cap) (mkRaw err d :: rest) = Some (Done false, 1%nat)
  | (Some e0, _) =>
      if str_includes (message e0) invalid_order_number then
        cancelOrder self (S cap) (mkRaw err d :: rest) = Some (Done true, 1%nat)
      else if notFatal (mark e0) then
        cancelOrder self 1 (mkRaw err d :: rest) = Some (Fail (mark e0), 1%nat)
        /\ cancelOrder self (S (S cap)) (mkRaw err d :: rest)
           = Retry.bump (cancelOrder self (S cap) rest)
      else
        cancelOrder self (S cap) (mkRaw err d :: rest)
        = Some (Fail (mark e0), 1%nat)
  end.
Proof.
  unfold cancelOrder.
  destruct (detect err d) as [[e0 |] dt] eqn:Hd.
  - destruct (str_includes (message e0) invalid_order_number) eqn:Hinv.
    + rewrite call_cons. unfold processResponse. simpl raw_err. simpl raw_body.
      rewrite Hd, mark_message, Hinv. reflexivity.
    + assert (Hp : processResponse self (Some "cancelOrder"%string) err d
                   = Next (Some (mark e0)) dt).
      { unfold processResponse. rewrite Hd, mark_message, Hinv. reflexivity. }
      destruct (notFatal (mark e0)) eqn:Hnf.
      * split; rewrite call_cons; simpl raw_err; simpl raw_body;
          rewrite Hp, Hnf; reflexivity.
      * rewrite call_cons. simpl raw_err. simpl raw_body.
        rewrite Hp, Hnf. reflexivity.
  - rewrite call_cons. unfold processResponse. simpl raw_err. simpl raw_body.
    rewrite Hd. apply detect_success in Hd as [-> Ht].
    destruct d as [| s | e [[]]]; simpl in Ht; try discriminate; reflexivity.
Qed.

(** C3 as stated fails: a cancellation the exchange did not carry out, told
    by a falsy [success] flag and no error, is reported as [false], not as an
    error. *)
Lemma cancel_refused_reported_not_filled :
  cancelOrder_handle None (Body (raw_body Samples.cancel_refused)) = Done false
  /\ cancelOrder Samples.trader 3 [ Samples.cancel_refused ]
     = Some (Done false, 1%nat).
Proof. split; reflexivity. Qed.

(** ** Order status *)

Lemma ident_eqb_eq (a b : ident) : ident_eqb a b = true <-> a = b.
Proof.
  destruct a, b; simpl; split; try discriminate; try reflexivity.
  - intros H. apply Z.eqb_eq in H. congruence.
  - intros [= ->]. apply Z.eqb_refl.
  - intros H. apply String.eqb_eq in H. congruence.
  - intros [= ->]. apply String.eqb_refl.
Qed.

(** C4, as the code has it.  On Poloniex, when the exchange reports its open
    orders: if an order with the queried identifier is among them,
    [checkOrder] reports it open and not executed, with [filledAmount] its
    starting amount minus its remaining amount; if none is, [checkOrder]
    reports the order executed and not open.  On Binance [checkOrder] reads
    the status of the queried order: NEW and PARTIALLY_FILLED are reported
    open and not executed, with [filledAmount] the executed quantity; FILLED
    is reported executed and not open; CANCELED, REJECTED and EXPIRED are
    reported neither executed nor open. *)
Theorem checkOrder_reports_order_state
    (self : Trader) (id : ident) (orders : list openOrder)
    (cap : nat) (rest : list (raw openOrders))
    (b : Binance.body Binance.order) :
  ((exists o, In o orders /\ o_orderNumber o = id) ->
   exists order,
     In order orders /\ o_orderNumber order = id
     /\ checkOrder self id (S cap)
          (mkRaw NoError (Json None (OrderArray orders)) :: rest)
        = Some (Done (mkStatus false true
                        (Some (startingAmount order - o_amount order)%float)),
                1%nat))
  /\ ((forall o, In o orders -> o_orderNumber o <> id) ->
      checkOrder self id (S cap)
        (mkRaw NoError (Json None (OrderArray orders)) :: rest)
      = Some (Done (mkStatus true false None), 1%nat))
  /\ (In (Binance.status (Binance.payload b)) [ "NEW"; "PARTIALLY_FILLED" ]%string ->
      Binance.check None (Some b)
      = Done (mkStatus false true
                (Some (Binance.executedQty (Binance.payload b)))))
  /\ (Binance.status (Binance.payload b) = "FILLED"%string ->
      Binance.check None (Some b) = Done (mkStatus true false None))
  /\ (In (Binance.status (Binance.payload b))
         [ "CANCELED"; "REJECTED"; "EXPIRED" ]%string ->
      Binance.check None (Some b) = Done (mkStatus false false None)).
Proof.
  split; [| split; [| split; [| split]]].
  - unfold checkOrder. rewrite call_cons.
    change (processResponse self None
              (raw_err (mkRaw NoError (Json None (OrderArray orders))))
              (raw_body (mkRaw NoError (Json None (OrderArray orders)))))
      with (@Next openOrders None (Body (Json None (OrderArray orders)))).
    cbn [checkOrder_handle view of_json openOrders_payload completed_of elements].
    rewrite find_reading_orders.
    intros [o [Hin Hid]].
    destruct (find (fun o => ident_eqb (o_orderNumber o) id) orders)
      as [order |] eqn:Hf.
    + apply find_some in Hf as [Hin' Heq]. apply ident_eqb_eq in Heq.
      exists order. auto.
    + exfalso. pose proof (find_none _ _ Hf o Hin) as Hno. simpl in Hno.
      apply ident_eqb_eq in Hid. congruence.
  - unfold checkOrder. rewrite call_cons.
    change (processResponse self None
              (raw_err (mkRaw NoError (Json None (OrderArray orders))))
              (raw_body (mkRaw NoError (Json None (OrderArray orders)))))
      with (@Next openOrders None (Body (Json None (OrderArray orders)))).
    cbn [checkOrder_handle view of_json openOrders_payload completed_of elements].
    rewrite find_reading_orders.
    intros Hnone.
    destruct (find (fun o => ident_eqb (o_orderNumber o) id) orders)
      as [order |] eqn:Hf; [| reflexivity].
    apply find_some in Hf as [Hin Heq]. apply ident_eqb_eq in Heq.
    exfalso. exact (Hnone order Hin Heq).
  - intros Hin. unfold Binance.check, option_map.
    simpl in Hin. destruct Hin as [<- | [<- | []]]; reflexivity.
  - intros Hst. unfold Binance.check, option_map. rewrite Hst. reflexivity.
  - intros Hin. unfold Binance.check, option_map.
    simpl in Hin. destruct Hin as [<- | [<- | [<- | []]]]; reflexivity.
Qed.

Lemma checkOrder_reports_order_state_witness :
  (exists order,
     In order Samples.book /\ o_orderNumber order = IdText "120467"
     /\ checkOrder Samples.trader (IdText "120467") 3
          [ mkRaw NoError (Json None (OrderArray Samples.book)) ]
        = Some (Done (mkStatus false true
                        (Some (startingAmount order - o_amount order)%float)),
                1%nat))
  /\ checkOrder Samples.trader (IdText "99") 3
       [ mkRaw NoError (Json None (OrderArray Samples.book)) ]
     = Some (Done (mkStatus true false None), 1%nat)
  /\ Binance.check None (Some Samples.filled_order)
     = Done (mkStatus true false None)
  /\ Binance.check None (Some Samples.cancelled_order)
     = Done (mkStatus false false None).
Proof.
  split; [| split; [| split]].
  - apply (proj1 (checkOrder_reports_order_state Samples.trader
                    (IdText "120467") Samples.book 2 [] Samples.filled_order)).
    exists (mkOpenOrder (IdText "120467") (DateAt 1522584060000) 1 0.75).
    split; [right; left; reflexivity | reflexivity].
  - apply (proj1 (proj2 (checkOrder_reports_order_state Samples.trader
                           (IdText "99") Samples.book 2 []
                           Samples.filled_order))).
    intros o [<- | [<- | []]]; discriminate.
  - apply (proj1 (proj2 (proj2 (proj2
             (checkOrder_reports_order_state Samples.trader (IdText "99")
                Samples.book 2 [] Samples.filled_order))))).
    reflexivity.
  - apply (proj2 (proj2 (proj2 (proj2
             (checkOrder_reports_order_state Samples.trader (IdText "99")
                Samples.book 2 [] Samples.cancelled_order))))).
    left. reflexivity.
Defined.

(** C4 as stated fails on Binance: a cancelled order is not among the open
    orders, and [checkOrder] reports it as not executed. *)
Lemma binance_cancelled_order_not_executed :
  Binance.checkOrder 11 [ (None, Some Samples.cancelled_order) ]
  = Some (Done (mkStatus false false None), 1%nat).
Proof. reflexivity. Qed.

(** ** Callbacks and exceptions *)

Lemma recognised_split (st : string) :
  Binance.status_in st Binance.recognised =
  Binance.status_in st [ "CANCELED"; "REJECTED"; "EXPIRED" ]%string
  || Binance.status_in st [ "NEW"; "PARTIALLY_FILLED" ]%string
  || (st =? "FILLED")%string.
Proof.
  unfold Binance.status_in, Binance.recognised. simpl.
  rewrite !orb_false_r, !orb_assoc. reflexivity.
Qed.

(** [getOrder] is [getOrder_sparse] on the answers that hold no [null]. *)
Lemma processResponse_as_sparse (self : Trader) (fn : option string)
    (err : rawError) (d : body (list trade)) :
  processResponse self fn err (body_as_sparse d)
  = match processResponse self fn err d with
    | Next error dt => Next error (data_as_sparse dt)
    | CheckLastTrade delay error => CheckLastTrade delay error
    end.
Proof.
  unfold processResponse, detect.
  destruct (err_truthy err); [cbn [fst snd]; case_ifs; reflexivity |].
  destruct d as [| s | [e |] l];
    cbn [body_as_sparse body_truthy body_error body_string negb];
    case_ifs; reflexivity.
Qed.

Lemma retry_as_sparse {R} (cap : nat)
    (reports : list (option (option Error * data (list trade))))
    (handle : option Error -> data (list trade) -> R)
    (handle' : option Error -> data sparseTrades -> R) :
  (forall e dt, handle' e (data_as_sparse dt) = handle e dt) ->
  Retry.retry notFatal cap
    (map (option_map (fun r => (fst r, data_as_sparse (snd r)))) reports)
    handle'
  = Retry.retry notFatal cap reports handle.
Proof.
  intros Hh. revert reports.
  induction cap as [| cap IH]; intros reports; [reflexivity |].
  destruct reports as [| [[[e |] dt] |] rest]; cbn [map option_map fst snd];
    cbn [Retry.retry]; rewrite ?Hh; try reflexivity.
  destruct (notFatal e); [| reflexivity].
  destruct cap; [reflexivity |]. rewrite IH. reflexivity.
Qed.

Lemma getOrder_sparse_agrees (self : Trader) (cap : nat)
    (answers : list (raw (list trade))) :
  getOrder_sparse self cap (map as_sparse answers) = getOrder self cap answers.
Proof.
  unfold getOrder_sparse, getOrder, call. rewrite map_map.
  rewrite <- (@retry_as_sparse _ cap _ getOrder_handle getOrder_handle_sparse).
  - f_equal. rewrite map_map. apply map_ext. intros [err d].
    unfold report, as_sparse. cbn [raw_err raw_body].
    rewrite processResponse_as_sparse.
    destruct (processResponse self (Some "getOrder"%string) err d);
      reflexivity.
  - intros e dt. unfold getOrder_handle_sparse, getOrder_handle.
    destruct dt as [| [| s | er l] | |]; reflexivity.
Qed.

(** An array or an object without [null] reads the same in either form. *)
Lemma sparse_reads_alike (id : ident) (since now : Z) (err : option Error)
    (error : option string) (c : bool) (l : list openOrder) :
  checkOrder_handle id err (Body (Json error (SparseArray (map Some l))))
  = checkOrder_handle id err (Body (Json error (OrderArray l)))
  /\ checkOrder_handle id err (Body (Json error (SparseObject c (map Some l))))
     = checkOrder_handle id err (Body (Json error (OrderObject c l)))
  /\ findLastTrade_handle since now err
       (Body (Json error (SparseArray (map Some l))))
     = findLastTrade_handle since now err (Body (Json error (OrderArray l)))
  /\ findLastTrade_handle since now err
       (Body (Json error (SparseObject c (map Some l))))
     = findLastTrade_handle since now err (Body (Json error (OrderObject c l))).
Proof.
  split; [reflexivity |]. split; [reflexivity |]. split; [| reflexivity].
  destruct l; reflexivity.
Qed.

(** When [checkOrder]'s handler raises, it has read an error-free object or
    array in which the search met a [null]. *)
Lemma checkOrder_handle_raises (self : Trader) (fn : option string) (id : ident)
    (err : rawError) (d : body openOrders) (dt : data openOrders)
    (what : string) :
  processResponse self fn err d = Next None dt ->
  checkOrder_handle id None dt = Thrown what ->
  what = TypeError
  /\ err_truthy err = false
  /\ exists r,
       d = Json None r /\ completed_of r = false
       /\ find_reading (fun o => ident_eqb (o_orderNumber o) id) (elements r)
          = Broken.
Proof.
  intros Hp Hh.
  destruct (processResponse_success _ _ _ _ Hp)
    as [-> | [-> | [-> [Herr [Ht Hbe]]]]].
  1, 2: exfalso; revert Hh; unfold checkOrder_handle;
    cbn [view of_marker openOrders_payload completed_of elements map
         find_reading];
    destruct (ident_eqb _ _); discriminate.
  destruct d as [| s | e r]; try discriminate Ht.
  - exfalso. revert Hh. unfold checkOrder_handle.
    cbn [view of_text openOrders_payload completed_of elements].
    rewrite find_reading_orders. destruct (find _ _); discriminate.
  - simpl in Hbe. destruct e as [e |]; [discriminate |].
    revert Hh. unfold checkOrder_handle. cbn [view of_json openOrders_payload].
    destruct (completed_of r) eqn:Hc; [discriminate |].
    destruct (find_reading _ (elements r)) eqn:Hf; try discriminate.
    intros [= <-]. split; [reflexivity |]. split; [exact Herr |].
    exists r. auto.
Qed.

(** When [getOrder]'s handler raises, it has read an error-free array that
    holds a [null]. *)
Lemma getOrder_handle_raises (self : Trader) (fn : option string)
    (err : rawError) (d : body sparseTrades) (dt : data sparseTrades)
    (what : string) :
  processResponse self fn err d = Next None dt ->
  getOrder_handle_sparse None dt = Thrown what ->
  what = TypeError
  /\ err_truthy err = false
  /\ exists l, d = Json None l /\ In None l.
Proof.
  intros Hp Hh.
  destruct (processResponse_success _ _ _ _ Hp)
    as [-> | [-> | [-> [Herr [Ht Hbe]]]]].
  1, 2: discriminate Hh.
  destruct d as [| s | e l]; try discriminate Ht.
  - exfalso. revert Hh. unfold getOrder_handle_sparse, getOrder_reads.
    cbn [view of_text sparseTrades_payload unfilled fills].
    destruct (each_trade _ _) eqn:He; [discriminate |].
    exfalso. exact (each_trade_blanks _ _ He).
  - simpl in Hbe. destruct e as [e |]; [discriminate |].
    revert Hh. unfold getOrder_handle_sparse, getOrder_reads.
    cbn [view of_json sparseTrades_payload unfilled fills].
    destruct (each_trade l _) eqn:He; [discriminate |].
    intros [= <-]. split; [reflexivity |]. split; [exact Herr |].
    exists l. split; [reflexivity |]. apply each_trade_raises in He. exact He.
Qed.

(** C5, as the code has it.  Given as many answers as the attempt budget
    allows, Poloniex's [getPortfolio] and [cancelOrder] end within the budget
    in one call of the caller's callback, with an error or a result, and
    raise nothing.  [checkOrder] and [getOrder] do the same unless the answer
    they finally read is an error-free object or array that holds a [null]
    where an order or a fill is expected and the handler reaches it: the
    handler then raises a TypeError and the callback is not called; an answer
    of that kind does make them raise.  Binance's [checkOrder] passes an
    error to its callback, invokes the callback with a status report for the
    statuses CANCELED, REJECTED, EXPIRED, NEW, PARTIALLY_FILLED and FILLED,
    and for any other status throws the status instead of invoking the
    callback. *)
Theorem callbacks_unless_unknown_status
    (self : Trader) (cap : nat) (id : ident)
    (a1 : list (raw balances)) (a2 : list (raw openOrders))
    (a3 : list (raw sparseTrades)) (a4 : list (raw cancelResponse))
    (e : Binance.exchangeError) (d : option (Binance.body Binance.order))
    (b : Binance.body Binance.order) :
  (1 <= cap)%nat ->
  (cap <= List.length a1)%nat -> (cap <= List.length a2)%nat ->
  (cap <= List.length a3)%nat -> (cap <= List.length a4)%nat ->
  Retry.calls_back cap (getPortfolio self cap a1)
  /\ Retry.calls_back cap (cancelOrder self cap a4)
  /\ (Retry.calls_back cap (checkOrder self id cap a2)
      \/ exists n err r,
           (1 <= n <= cap)%nat
           /\ nth_error a2 (n - 1) = Some (mkRaw err (Json None r))
           /\ err_truthy err = false /\ completed_of r = false
           /\ find_reading (fun o => ident_eqb (o_orderNumber o) id)
                (elements r) = Broken
           /\ checkOrder self id cap a2 = Some (Thrown TypeError, n))
  /\ (Retry.calls_back cap (getOrder_sparse self cap a3)
      \/ exists n err l,
           (1 <= n <= cap)%nat
           /\ nth_error a3 (n - 1) = Some (mkRaw err (Json None l))
           /\ err_truthy err = false /\ In None l
           /\ getOrder_sparse self cap a3 = Some (Thrown TypeError, n))
  /\ (forall err r rest,
        err_truthy err = false -> completed_of r = false ->
        find_reading (fun o => ident_eqb (o_orderNumber o) id) (elements r)
        = Broken ->
        checkOrder self id cap (mkRaw err (Json None r) :: rest)
        = Some (Thrown TypeError, 1%nat))
  /\ (forall err l rest,
        err_truthy err = false -> In None l ->
        getOrder_sparse self cap (mkRaw err (Json None l) :: rest)
        = Some (Thrown TypeError, 1%nat))
  /\ Binance.check (Some e) d = Fail e
  /\ (if Binance.status_in (Binance.status (Binance.payload b)) Binance.recognised
      then exists report, Binance.check None (Some b) = Done report
      else Binance.check None (Some b)
           = Thrown (Binance.status (Binance.payload b))).
Proof.
  intros Hcap H1 H2 H3 H4.
  split; [| split; [| split; [| split; [| split; [| split; [| split]]]]]].
  - destruct (@call_calls_back_or_raises balances _ self None
                (getPortfolio_handle self) eq_refl (fun _ _ => eq_refl)
                cap a1 (conj Hcap H1))
      as [H | [n [a [dt [what [_ [_ [Hp [Hh _]]]]]]]]]; [exact H |].
    exfalso. pose proof (success_has_view _ _ _ _ Hp) as Hv.
    revert Hh. unfold getPortfolio_handle.
    destruct (view dt); [| congruence].
    destruct (isNaN _ || isNaN _); discriminate.
  - destruct (@call_calls_back_or_raises cancelResponse _ self
                (Some "cancelOrder"%string) cancelOrder_handle eq_refl
                (fun _ _ => eq_refl) cap a4 (conj Hcap H4))
      as [H | [n [a [dt [what [_ [_ [Hp [Hh _]]]]]]]]]; [exact H |].
    exfalso. pose proof (success_has_view _ _ _ _ Hp) as Hv.
    revert Hh. unfold cancelOrder_handle.
    destruct (view dt); [| congruence].
    destruct (filled _); [discriminate |].
    destruct (negb _); discriminate.
  - destruct (@call_calls_back_or_raises openOrders _ self None
                (checkOrder_handle id) eq_refl (fun _ _ => eq_refl)
                cap a2 (conj Hcap H2))
      as [H | [n [[err bd] [dt [what [Hn [Hnth [Hp [Hh Hcall]]]]]]]]];
      [left; exact H | right].
    cbn [raw_err raw_body] in Hp.
    destruct (checkOrder_handle_raises _ _ _ _ _ Hp Hh)
      as [-> [Herr [r [-> [Hc Hf]]]]].
    exists n, err, r. auto 10.
  - destruct (@call_calls_back_or_raises sparseTrades _ self
                (Some "getOrder"%string) getOrder_handle_sparse eq_refl
                (fun _ _ => eq_refl) cap a3 (conj Hcap H3))
      as [H | [n [[err bd] [dt [what [Hn [Hnth [Hp [Hh Hcall]]]]]]]]];
      [left; exact H | right].
    cbn [raw_err raw_body] in Hp.
    destruct (getOrder_handle_raises _ _ _ _ Hp Hh)
      as [-> [Herr [l [-> Hin]]]].
    exists n, err, l. auto 10.
  - intros err r rest Herr Hc Hf. destruct cap as [| cap']; [lia |].
    unfold checkOrder. rewrite call_cons. cbn [raw_err raw_body].
    unfold processResponse, detect. rewrite Herr.
    cbn [body_truthy negb body_error body_string includes].
    unfold checkOrder_handle. cbn [view of_json openOrders_payload].
    rewrite Hc, Hf. reflexivity.
  - intros err l rest Herr Hin. destruct cap as [| cap']; [lia |].
    unfold getOrder_sparse. rewrite call_cons. cbn [raw_err raw_body].
    unfold processResponse, detect. rewrite Herr.
    cbn [body_truthy negb body_error body_string includes].
    unfold getOrder_handle_sparse, getOrder_reads.
    cbn [view of_json sparseTrades_payload unfilled fills].
    apply each_trade_raises with (acc := mkSummary 0 0 (DateAt 0)) in Hin.
    rewrite Hin. reflexivity.
  - reflexivity.
  - rewrite recognised_split. unfold Binance.check, option_map.
    destruct (Binance.status_in _ [ "CANCELED"; "REJECTED"; "EXPIRED" ]%string);
      [simpl; eauto |].
    destruct (Binance.status_in _ [ "NEW"; "PARTIALLY_FILLED" ]%string);
      [simpl; eauto |].
    destruct (Binance.status (Binance.payload b) =? "FILLED")%string;
      simpl; eauto.
Qed.

Lemma callbacks_unless_unknown_status_witness :
  Retry.calls_back 1 (getPortfolio Samples.trader 1 [ Samples.asset_only ])
  /\ Retry.calls_back 1 (cancelOrder Samples.trader 1 [ Samples.cancel_refused ])
  /\ getOrder_sparse Samples.trader 1
       [ mkRaw NoError (Json None [ None ]); Samples.socket_timeout ]
     = Some (Thrown TypeError, 1%nat).
Proof.
  destruct (@callbacks_unless_unknown_status Samples.trader 1 (IdNum 7)
              [ Samples.asset_only ] [ Samples.socket_timeout ]
              [ Samples.socket_timeout ] [ Samples.cancel_refused ]
              (Binance.AbortError "") None Samples.filled_order)
    as [Hp [Hc [_ [_ [_ [Hg _]]]]]]; try (simpl; lia).
  split; [exact Hp |]. split; [exact Hc |].
  apply Hg; [reflexivity | left; reflexivity].
Defined.

(** C5 as stated fails on both adapters.  Binance documents the status
    PENDING_CANCEL, and [checkOrder] throws it; on Poloniex an array of open
    orders that holds a [null] makes [checkOrder] raise a TypeError.  In
    neither case is the callback called. *)
Lemma binance_checkOrder_throws :
  Binance.checkOrder 11 [ Samples.pending_cancel ]
  = Some (Thrown "PENDING_CANCEL"%string, 1%nat)
  /\ ~ Retry.calls_back 11 (Binance.checkOrder 11 [ Samples.pending_cancel ])
  /\ checkOrder Samples.trader (IdNum 7) 3
       [ mkRaw NoError (Json None (SparseArray [ None ])) ]
     = Some (Thrown TypeError, 1%nat).
Proof.
  split; [reflexivity |]. split; [intros H; exact H | reflexivity].
Qed.

(** ** Binary64 arithmetic *)

Local Open Scope float_scope.

Lemma float_add_comm (x y : float) : x + y = y + x.
Proof.
  apply Prim2SF_inj. rewrite !FloatAxioms.add_spec.
  destruct (Prim2SF x) as [sx | sx | | sx mx ex],
           (Prim2SF y) as [sy | sy | | sy my ey];
    try reflexivity; try (destruct sx, sy; reflexivity).
  unfold SF64add, SFadd. rewrite Z.min_comm. f_equal. apply Z.add_comm.
Qed.


(** ** Fills of an order *)

(** On an error-free array of trades [getOrder] reports their reduction. *)
Lemma getOrder_fills (self : Trader) (fills : list trade) (cap : nat)
    (rest : list (raw (list trade))) :
  getOrder self (S cap) (mkRaw NoError (Json None fills) :: rest)
  = Some (Done (fold_left accumulate fills (mkSummary 0 0 (DateAt 0))), 1%nat).
Proof.
  unfold getOrder. rewrite call_cons.
  change (processResponse self (Some "getOrder"%string)
            (raw_err (mkRaw NoError (Json None fills)))
            (raw_body (mkRaw NoError (Json None fills))))
    with (@Next (list trade) None (Body (Json None fills))).
  unfold getOrder_handle, getOrder_reads.
  cbn [view of_json orderTrades_payload unfilled Poloniex.fills].
  rewrite each_trade_fills. reflexivity.
Qed.

Lemma accumulate_amount (l : list trade) (acc : orderSummary) :
  amount (fold_left accumulate l acc)
  = fold_left (fun total t => total + t_amount t) l (amount acc).
Proof.
  revert acc; induction l as [| t l IH]; intros acc; simpl; [reflexivity |].
  rewrite IH. reflexivity.
Qed.

Lemma last_cons_default {A} (a : A) (l : list A) (d d' : A) :
  last (a :: l) d = last (a :: l) d'.
Proof.
  revert a; induction l as [| b l IH]; intros a; [reflexivity |].
  change (last (b :: l) d = last (b :: l) d'). apply IH.
Qed.

Lemma accumulate_date (l : list trade) (acc : orderSummary) :
  date (fold_left accumulate l acc) = last (map t_date l) (date acc).
Proof.
  revert acc; induction l as [| t l IH]; intros acc; [reflexivity |].
  cbn [fold_left map]. rewrite IH. cbn [accumulate date].
  destruct l as [| t' l]; [reflexivity |].
  change (last (t_date t' :: map t_date l) (t_date t)
          = last (t_date t' :: map t_date l) (date acc)).
  apply last_cons_default.
Qed.

(** C7.  [getOrder] reduces the fills in order by the running volume-weighted
    average: price' = (price * amount + rate * fillAmount) / (amount +
    fillAmount) and amount' = amount + fillAmount.  The fills (rate 10,
    amount 1), (rate 20, amount 1) reduce to price 15 and amount 2; the
    unfilled marker and the empty list of fills give price 0, amount 0 and the
    epoch, as a success. *)
Theorem getOrder_volume_weighted_average
    (self : Trader) (fills : list trade) (acc : orderSummary) (t : trade)
    (d1 d2 : jsdate) (cap : nat) (rest : list (raw (list trade))) :
  accumulate acc t
  = mkSummary
      ((price acc * amount acc + rate t * t_amount t) / (amount acc + t_amount t))
      (amount acc + t_amount t)
      (t_date t)
  /\ getOrder self (S cap) (mkRaw NoError (Json None fills) :: rest)
     = Some (Done (fold_left accumulate fills (mkSummary 0 0 (DateAt 0))), 1%nat)
  /\ getOrder self (S cap)
       (mkRaw NoError (Json None [ mkTrade d1 10 1; mkTrade d2 20 1 ]) :: rest)
     = Some (Done (mkSummary 15 2 d2), 1%nat)
  /\ getOrder_handle None Unfilled = Done (mkSummary 0 0 (DateAt 0))
  /\ getOrder self (S cap) (mkRaw NoError (Json None []) :: rest)
     = Some (Done (mkSummary 0 0 (DateAt 0)), 1%nat).
Proof.
  split; [| split; [| split; [| split]]].
  - unfold accumulate. rewrite (float_add_comm (t_amount t) (amount acc)).
    reflexivity.
  - apply getOrder_fills.
  - rewrite getOrder_fills. reflexivity.
  - reflexivity.
  - rewrite getOrder_fills. reflexivity.
Qed.

(** ** Balances *)

(** C10.  For every balance response that arrives without error, Poloniex's
    [getPortfolio] returns exactly two entries, the asset first and the
    currency second; when either parsed balance is NaN (missing or not
    numeric) both amounts are 0, otherwise they are the parsed balances. *)
Theorem getPortfolio_two_entries
    (self : Trader) (err : rawError) (d : body balances) (dt : data balances)
    (cap : nat) (rest : list (raw balances)) :
  detect err d = (None, dt) ->
  exists v a c,
    view dt = Some v
    /\ getPortfolio self (S cap) (mkRaw err d :: rest)
       = Some (Done [ (asset self, a); (currency self, c) ], 1%nat)
    /\ (if isNaN (parsed v (asset self)) || isNaN (parsed v (currency self))
        then a = 0 /\ c = 0
        else a = parsed v (asset self) /\ c = parsed v (currency self)).
Proof.
  intros Hd. unfold getPortfolio. rewrite call_cons.
  unfold processResponse. simpl raw_err. simpl raw_body. rewrite Hd.
  apply detect_success in Hd as [-> Ht].
  assert (Hv : exists v, view (Body d) = Some v).
  { destruct d as [| s | e v]; simpl in *; try discriminate; eauto. }
  destruct Hv as [v Hv]. unfold getPortfolio_handle. rewrite Hv.
  destruct (isNaN (parsed v (asset self)) || isNaN (parsed v (currency self)))
    eqn:Hnan.
  - exists v, 0, 0. rewrite Hnan. auto.
  - exists v, (parsed v (asset self)), (parsed v (currency self)).
    rewrite Hnan. auto.
Qed.

Lemma getPortfolio_two_entries_witness :
  exists v a c,
    view (Body (raw_body Samples.asset_only)) = Some v
    /\ getPortfolio Samples.trader 3 [ Samples.asset_only ]
       = Some (Done [ ("ETH"%string, a); ("BTC"%string, c) ], 1%nat)
    /\ (if isNaN (parsed v "ETH") || isNaN (parsed v "BTC")
        then a = 0 /\ c = 0
        else a = parsed v "ETH" /\ c = parsed v "BTC").
Proof.
  exact (@getPortfolio_two_entries Samples.trader
           (raw_err Samples.asset_only) (raw_body Samples.asset_only)
           (Body (raw_body Samples.asset_only)) 2 [] eq_refl).
Defined.

(** ** Determinism *)






(** ** Rounding *)






Lemma round_not_finite (y : float) : isFinite y = false -> Js.round y = y.
Proof. intros H. unfold Js.round, small. rewrite H. reflexivity. Qed.

Lemma mul_infinity_not_finite (t : float) :
  isFinite t = true ->
  Prim2SF (t * infinity) = S754_nan
  \/ exists s, Prim2SF (t * infinity) = S754_infinity s.
Proof.
  intros H. rewrite FloatAxioms.mul_spec.
  change (Prim2SF infinity) with (S754_infinity false).
  unfold isFinite in H.
  destruct (Prim2SF t); try discriminate; unfold SF64mul, SFmul; eauto.
Qed.

(** Once [e] has overflowed, the test of the loop fails for every finite
    tick size. *)
Lemma exact_at_infinity (t : float) :
  isFinite t = true -> Binance.exact_at t infinity = false.
Proof.
  intros H. unfold Binance.exact_at.
  assert (Hy : isFinite (t * infinity) = false).
  { unfold isFinite.
    destruct (mul_infinity_not_finite t H) as [-> | [s ->]]; reflexivity. }
  rewrite (round_not_finite _ Hy).
  rewrite FloatAxioms.eqb_spec, FloatAxioms.div_spec.
  change (Prim2SF infinity) with (S754_infinity false).
  destruct (mul_infinity_not_finite t H) as [-> | [s ->]];
    unfold SF64div, SFdiv, SFeqb, SFcompare; reflexivity.
Qed.





(** ** Placement after a connection timeout *)

Local Open Scope string_scope.

Lemma append_assoc (a b c : string) : (a ++ b) ++ c = a ++ b ++ c.
Proof. induction a as [| x a IH]; simpl; [| rewrite IH]; reflexivity. Qed.

Lemma etimedout_is_recoverable (msg : string) :
  str_includes msg "ETIMEDOUT" = true ->
  includes (Some msg) recoverableErrors = true.
Proof.
  intros H. apply includes_iff. exists "TIMEDOUT". split.
  - unfold recoverableErrors. simpl. tauto.
  - apply str_includes_spec in H as [a [b ->]].
    apply str_includes_spec. exists (a ++ "E"), b.
    rewrite append_assoc. reflexivity.
Qed.

(** The look-up answers with a non-empty array of open orders. *)
Lemma placement_report_timeout
    (self : Trader) (err : rawError) (d : body placed) (e0 : Error)
    (dt : data placed) (now : Z) (o : openOrder) (orders : list openOrder)
    (policy : nat) (more : list (raw openOrders)) :
  detect err d = (Some e0, dt) ->
  str_includes (message e0) "ETIMEDOUT" = true ->
  processResponse self (Some "order") err d
  = CheckLastTrade (checkInterval self) (mkError (message e0) true)
  /\ placement_report self (S policy)
       (mkAttempt (mkRaw err d) now
          (mkRaw NoError (Json None (OrderArray (o :: orders))) :: more))
     = Some (match find (recent 2 now) (o :: orders) with
             | Some found => (None, as_placement found)
             | None => (Some (mkError (message e0) true), Undefined)
             end).
Proof.
  intros Hd Hinc.
  assert (Hp : processResponse self (Some "order") err d
               = CheckLastTrade (checkInterval self) (mkError (message e0) true)).
  { unfold processResponse. rewrite Hd.
    assert (Hm : mark e0 = mkError (message e0) true).
    { unfold mark. rewrite (etimedout_is_recoverable _ Hinc). reflexivity. }
    rewrite Hm. cbn [message fn_is]. unfold includes, unknownResultErrors.
    cbn [existsb]. rewrite Hinc. reflexivity. }
  split; [exact Hp |].
  unfold placement_report. cbn [answer raw_err raw_body lookups Poloniex.now].
  rewrite Hp. unfold findLastTrade. rewrite call_cons.
  change (processResponse self None
            (raw_err (mkRaw NoError (Json None (OrderArray (o :: orders)))))
            (raw_body (mkRaw NoError (Json None (OrderArray (o :: orders))))))
    with (@Next openOrders None (Body (Json None (OrderArray (o :: orders))))).
  unfold checkLastTrade, findLastTrade_handle.
  cbn [view of_json openOrders_payload length_falsy elements app Z.eqb].
  rewrite find_reading_orders.
  destruct (find (recent 2 now) (o :: orders)); reflexivity.
Qed.

Local Close Scope string_scope.

(** C1, as the code has it.  For every placement call (buy or sell) whose raw
    attempt fails with an error whose message contains ETIMEDOUT,
    [processResponse] does not report at once: it arms a timer of
    [this.checkInterval] milliseconds and then asks the exchange for the open
    orders of the pair.  When that look-up returns a non-empty list: if one
    of the orders is dated within the last two minutes, the caller's callback
    receives the order number of the first such order as success; if none is,
    the original error, marked [notFatal], goes back to the retry scheduler,
    which sends the placement again while attempts are left and gives the
    caller that error once they are spent. *)
Theorem placement_timeout_checks_last_trade
    (self : Trader) (err : rawError) (d : body placed) (e0 : Error)
    (dt : data placed) (now : Z) (o : openOrder) (orders : list openOrder)
    (policy cap : nat) (more : list (raw openOrders)) (rest : list attempt) :
  detect err d = (Some e0, dt) ->
  str_includes (message e0) "ETIMEDOUT" = true ->
  processResponse self (Some "order"%string) err d
  = CheckLastTrade (checkInterval self) (mkError (message e0) true)
  /\ match find (recent 2 now) (o :: orders) with
     | Some found =>
         place self (S policy) (S cap)
           (mkAttempt (mkRaw err d) now
              (mkRaw NoError (Json None (OrderArray (o :: orders))) :: more)
            :: rest)
         = Some (Done (o_orderNumber found), 1%nat)
     | None =>
         place self (S policy) 1
           (mkAttempt (mkRaw err d) now
              (mkRaw NoError (Json None (OrderArray (o :: orders))) :: more)
            :: rest)
         = Some (Fail (mkError (message e0) true), 1%nat)
         /\ place self (S policy) (S (S cap))
              (mkAttempt (mkRaw err d) now
                 (mkRaw NoError (Json None (OrderArray (o :: orders))) :: more)
               :: rest)
            = Retry.bump (place self (S policy) (S cap) rest)
     end.
Proof.
  intros Hd Hinc.
  destruct (placement_report_timeout self err d now o orders policy more Hd Hinc)
    as [Hp Hr].
  split; [exact Hp |].
  unfold place. cbn [map]. rewrite Hr.
  destruct (find (recent 2 now) (o :: orders)); [reflexivity |].
  split; reflexivity.
Qed.

Lemma placement_timeout_checks_last_trade_witness :
  processResponse Samples.trader (Some "order"%string)
    (raw_err (answer Samples.timed_out_placed))
    (raw_body (answer Samples.timed_out_placed))
  = CheckLastTrade (Some 1500%Z)
      (mkError "Error: connect ETIMEDOUT 104.20.12.48:443" true)
  /\ buy Samples.trader 5 [ Samples.timed_out_placed ]
     = Some (Done (IdText "120466"), 1%nat).
Proof.
  exact (@placement_timeout_checks_last_trade Samples.trader
           (raw_err (answer Samples.timed_out_placed))
           (raw_body (answer Samples.timed_out_placed))
           (mkError "Error: connect ETIMEDOUT 104.20.12.48:443" false)
           (Body Nullish) 1522584080000
           (mkOpenOrder (IdText "120466") (DateAt 1522584000000) 2 2)
           [ mkOpenOrder (IdText "120467") (DateAt 1522584060000) 1 0.75 ]
           4 4 [] [] eq_refl eq_refl).
Defined.

(** C1 as stated fails: when the look-up finds no recent order the placement
    is sent a second time, and the caller receives the second attempt's order
    instead of the original error. *)
Lemma buy_timeout_submits_again :
  placement_report Samples.trader 5 Samples.timed_out
  = Some (Some (mkError "Error: connect ETIMEDOUT 104.20.12.48:443" true),
          Undefined)
  /\ buy Samples.trader 5 [ Samples.timed_out; Samples.accepted ]
     = Some (Done (IdNum 42), 2%nat).
Proof. split; vm_compute; reflexivity. Qed.

(** Two statements of [findLastTrade]'s handler go wrong: on an empty list it
    calls back twice, and on a failed look-up it names an unbound [next]. *)
Remark lookup_empty_reports_twice (error : Error) (now : Z) :
  checkLastTrade error now None (Body (Json None (OrderArray [])))
  = [ Call (Some error, Undefined); Call (Some error, Undefined) ].
Proof. reflexivity. Qed.

Remark lookup_failure_raises (error e : Error) (now : Z) (dt : data openOrders) :
  checkLastTrade error now (Some e) dt = [ Raise ReferenceError ].
Proof. reflexivity. Qed.

(* ------------------------------------------------------------------ *)
(** * Further properties of the adapters *)
(* ------------------------------------------------------------------ *)

Local Open Scope string_scope.

(** ** [processResponse]: precedence among the checks *)

Lemma fn_guard_false (fn : option string) (name : string) (b : bool) :
  b = false -> fn_is fn name && b = false.
Proof. intros ->. apply andb_false_r. Qed.

(** What [processResponse] does with an error no override applies to. *)
Lemma processResponse_plain {P} (self : Trader) (fn : option string)
    (err : rawError) (d : body P) (e0 : Error) (dt : data P) :
  detect err d = (Some e0, dt) ->
  str_includes (message e0) order_not_found = false ->
  str_includes (message e0) invalid_order_number = false ->
  includes (Some (message e0)) unknownResultErrors = false ->
  processResponse self fn err d = Next (Some (mark e0)) dt.
Proof.
  intros Hd H1 H2 H3. unfold processResponse. rewrite Hd, !mark_message.
  rewrite (fn_guard_false fn _ H1), (fn_guard_false fn _ H2),
    (fn_guard_false fn _ H3).
  reflexivity.
Qed.

Lemma includes_nonempty (s t : string) :
  str_includes s t = true -> t <> "" -> s <> "".
Proof.
  intros H Ht ->. apply str_includes_spec in H as [a [b Hab]].
  destruct a; simpl in Hab; [| discriminate].
  destruct t; [congruence | discriminate].
Qed.

(** X1.  A body that is the CloudFlare challenge page is a fatal error with
    the CloudFlare message, whatever the operation and whatever else the page
    contains, and the body is dropped. *)
Theorem cloudflare_page_is_fatal
    (P : Type) (self : Trader) (fn : option string) (err : rawError) (s : string) :
  err_truthy err = false ->
  str_includes s cloudflare_page = true ->
  processResponse self fn err (@Text P s)
  = Next (Some (mkError cloudflare_message false)) Undefined.
Proof.
  intros Herr Hs.
  assert (Hne : s <> "") by (apply (includes_nonempty Hs); discriminate).
  rewrite (@processResponse_plain P self fn err (Text s)
             (mkError cloudflare_message false) Undefined); try reflexivity.
  unfold detect. rewrite Herr. cbn [body_truthy body_error body_string].
  apply String.eqb_neq in Hne. rewrite Hne. cbn [negb].
  unfold includes. cbn [existsb]. rewrite Hs. reflexivity.
Qed.

Lemma cloudflare_page_is_fatal_witness :
  processResponse Samples.trader (Some "order") NoError
    (@Text placed
       "<!DOCTYPE html><p>Please complete the security check to proceed.</p> 502")
  = Next (Some (mkError cloudflare_message false)) Undefined.
Proof.
  exact (@cloudflare_page_is_fatal placed Samples.trader (Some "order") NoError
           "<!DOCTYPE html><p>Please complete the security check to proceed.</p> 502"
           eq_refl eq_refl).
Defined.

(** X2.  Without a transport error, a falsy body is the retryable error
    "Empty response" for every operation; none of the overrides applies to
    it. *)
Theorem empty_body_is_retryable
    (P : Type) (self : Trader) (fn : option string) (err : rawError) (d : body P) :
  err_truthy err = false ->
  body_truthy d = false ->
  processResponse self fn err d
  = Next (Some (mkError "Empty response" true)) (Body d).
Proof.
  intros Herr Hd.
  rewrite (@processResponse_plain P self fn err d
             (mkError "Empty response" false) (Body d)); try reflexivity.
  unfold detect. rewrite Herr, Hd. reflexivity.
Qed.

Lemma empty_body_is_retryable_witness :
  processResponse Samples.trader (Some "order") (ErrorText "") (@Nullish placed)
  = Next (Some (mkError "Empty response" true)) (Body Nullish).
Proof.
  exact (@empty_body_is_retryable placed Samples.trader (Some "order")
           (ErrorText "") Nullish eq_refl eq_refl).
Defined.

(** X3.  A transport error decides alone: with a truthy [err] the outcome is
    the same whatever body came with it, an [error] property or an error page
    in the body included. *)
Theorem transport_error_wins
    (P : Type) (self : Trader) (fn : option string) (err : rawError)
    (d d' : body P) :
  err_truthy err = true ->
  classify (processResponse self fn err d)
  = classify (processResponse self fn err d').
Proof.
  intros Herr. unfold processResponse, detect. rewrite Herr.
  case_ifs; reflexivity.
Qed.

Lemma transport_error_wins_witness :
  classify (processResponse Samples.trader None
              (ErrorObject "Error" "ESOCKETTIMEDOUT")
              (Json (Some "Invalid API key") Samples.book))
  = classify (processResponse Samples.trader None
                (ErrorObject "Error" "ESOCKETTIMEDOUT") (Text cloudflare_page)).
Proof.
  exact (@transport_error_wins (list openOrder) Samples.trader None
           (ErrorObject "Error" "ESOCKETTIMEDOUT")
           (Json (Some "Invalid API key") Samples.book) (Text cloudflare_page)
           eq_refl).
Defined.

(** X4.  A string body that asks to try again in a few minutes, and is not
    the CloudFlare page, is a retryable error with exactly that message for
    every operation, and the body is dropped. *)
Theorem try_again_is_retryable
    (P : Type) (self : Trader) (fn : option string) (err : rawError) (s : string) :
  err_truthy err = false ->
  str_includes s cloudflare_page = false ->
  str_includes s try_again = true ->
  processResponse self fn err (@Text P s)
  = Next (Some (mkError try_again true)) Undefined.
Proof.
  intros Herr Hcf Hs.
  assert (Hne : s <> "") by (apply (includes_nonempty Hs); discriminate).
  rewrite (@processResponse_plain P self fn err (Text s)
             (mkError try_again true) Undefined); try reflexivity.
  unfold detect. rewrite Herr. cbn [body_truthy body_error body_string].
  apply String.eqb_neq in Hne. rewrite Hne. cbn [negb].
  unfold includes. cbn [existsb]. rewrite Hcf, Hs. reflexivity.
Qed.

Lemma try_again_is_retryable_witness :
  processResponse Samples.trader (Some "cancelOrder") NoError
    (@Text cancelResponse "<html>Please try again in a few minutes.</html>")
  = Next (Some (mkError try_again true)) Undefined.
Proof.
  exact (@try_again_is_retryable cancelResponse Samples.trader
           (Some "cancelOrder") NoError
           "<html>Please try again in a few minutes.</html>"
           eq_refl eq_refl eq_refl).
Defined.

(** ** [findLastTrade] *)

Lemma find_first {A} (f : A -> bool) (l : list A) (x : A) :
  find f l = Some x ->
  exists before after,
    l = (before ++ x :: after)%list /\ f x = true
    /\ forall y, In y before -> f y = false.
Proof.
  induction l as [| a l IH]; simpl; [discriminate |].
  destruct (f a) eqn:Ha.
  - intros [= <-]. exists [], l. repeat split; auto. intros y [].
  - intros Hf. destruct (IH Hf) as [before [after [-> [Hx Hb]]]].
    exists (a :: before), after. repeat split; auto.
    intros y [<- | Hy]; auto.
Qed.

(** X5.  With a window of [since] minutes and a non-empty list of open
    orders, [findLastTrade] calls back once, with the first order of the list
    that is dated inside the window (not the latest one), or with no order
    when none is. *)
Theorem findLastTrade_first_recent
    (since now : Z) (o : openOrder) (l : list openOrder) :
  since <> 0%Z ->
  (exists found before after,
      o :: l = (before ++ found :: after)%list
      /\ recent since now found = true
      /\ (forall x, In x before -> recent since now x = false)
      /\ findLastTrade_handle since now None (Body (Json None (OrderArray (o :: l))))
         = [ Call (None, Some found) ])
  \/ ((forall x, In x (o :: l) -> recent since now x = false)
      /\ findLastTrade_handle since now None (Body (Json None (OrderArray (o :: l))))
         = [ Call (None, None) ]).
Proof.
  intros Hs. apply Z.eqb_neq in Hs.
  unfold findLastTrade_handle.
  cbn [view of_json openOrders_payload length_falsy elements app].
  rewrite Hs, find_reading_orders.
  destruct (find (recent since now) (o :: l)) as [found |] eqn:Hf.
  - left. destruct (find_first _ _ Hf) as [before [after [Heq [Hr Hb]]]].
    exists found, before, after. auto.
  - right. split; [| reflexivity].
    intros x Hx. exact (find_none _ _ Hf x Hx).
Qed.

Lemma findLastTrade_first_recent_witness :
  (exists found before after,
      Samples.book = (before ++ found :: after)%list
      /\ recent 2 1522584170000 found = true
      /\ (forall x, In x before -> recent 2 1522584170000 x = false)
      /\ findLastTrade_handle 2 1522584170000 None
           (Body (Json None (OrderArray Samples.book)))
         = [ Call (None, Some found) ])
  \/ ((forall x, In x Samples.book -> recent 2 1522584170000 x = false)
      /\ findLastTrade_handle 2 1522584170000 None
           (Body (Json None (OrderArray Samples.book)))
         = [ Call (None, None) ]).
Proof.
  apply (@findLastTrade_first_recent 2 1522584170000
           (mkOpenOrder (IdText "120466") (DateAt 1522584000000) 2 2)
           [ mkOpenOrder (IdText "120467") (DateAt 1522584060000) 1 0.75 ]).
  discriminate.
Defined.

(** Whatever [call] returns is what the handler made of one report, and a
    report without error can be read as an object. *)
Lemma call_result {P R} `{Payload P} (self : Trader) (fn : option string)
    (handle : option Error -> data P -> R) :
  forall cap answers r n,
    call self fn cap answers handle = Some (r, n) ->
    exists e dt, r = handle e dt /\ (e = None -> view dt <> None).
Proof.
  induction cap as [| cap IH]; intros answers r n.
  - destruct answers; discriminate.
  - destruct answers as [| a rest]; [discriminate |].
    rewrite call_cons.
    destruct (processResponse self fn (raw_err a) (raw_body a))
      as [[e |] dt | ? ?] eqn:Hp.
    + destruct (notFatal e).
      * destruct cap.
        -- intros [= <- _]. exists (Some e), dt. split; [auto | discriminate].
        -- destruct (call self fn (S cap) rest handle) as [[r' n'] |] eqn:Hc;
             simpl; [| discriminate].
           intros [= <- _]. exact (IH _ _ _ Hc).
      * intros [= <- _]. exists (Some e), dt. split; [auto | discriminate].
    + intros [= <- _]. exists None, dt. split; [auto |].
      intros _. exact (success_has_view _ _ _ _ Hp).
    + discriminate.
Qed.

(** X6.  [findLastTrade] never passes an error to its callback.  When the
    look-up ends in an error its handler raises a ReferenceError (it names
    [next], which is not in scope); when the search for a recent order meets
    a [null] in the answer it raises a TypeError; otherwise the callback is
    called once, with the order found or none.  An answer without a truthy
    [length] makes the handler call back with no order first and go on, so
    that the callback is called twice, or once before the TypeError.  An
    empty array of open orders is such an answer. *)
Theorem findLastTrade_never_reports_failure
    (self : Trader) (since now : Z) (cap : nat)
    (answers rest : list (raw openOrders)) (l : list (option openOrder))
    (events : list (event (option Error * option openOrder))) (n : nat) :
  findLastTrade_calls self since now cap answers = Some (events, n) ->
  (events = [ Raise ReferenceError ]
   \/ events = [ Raise TypeError ]
   \/ (exists x, events = [ Call (None, x) ])
   \/ (exists x, events = [ Call (None, None); Call (None, x) ])
   \/ events = [ Call (None, None); Raise TypeError ])
  /\ findLastTrade_calls self since now (S cap)
       (mkRaw NoError (Json None (OrderArray [])) :: rest)
     = Some ([ Call (None, None); Call (None, None) ], 1%nat)
  /\ (since <> 0%Z ->
      findLastTrade_calls self since now (S cap)
        (mkRaw NoError (Json None (SparseArray (None :: l))) :: rest)
      = Some ([ Raise TypeError ], 1%nat)).
Proof.
  intros Hc. split; [| split].
  - unfold findLastTrade_calls, findLastTrade in Hc.
    destruct (call_result _ _ _ _ _ Hc) as [e [dt [-> Hv]]].
    unfold findLastTrade_handle. destruct e as [e |]; [auto |].
    destruct (view dt) as [r |]; [| exfalso; exact (Hv eq_refl eq_refl)].
    destruct (length_falsy r), (since =? 0)%Z;
      try destruct (find_reading (recent since now) (elements r));
      simpl; eauto 10.
  - unfold findLastTrade_calls, findLastTrade. rewrite call_cons.
    change (processResponse self None
              (raw_err (mkRaw NoError (Json None (OrderArray []))))
              (raw_body (mkRaw NoError (Json None (OrderArray [])))))
      with (@Next openOrders None (Body (Json None (OrderArray [])))).
    unfold findLastTrade_handle.
    cbn [view of_json openOrders_payload length_falsy elements app last_of
         find_reading map last].
    destruct (since =? 0)%Z; reflexivity.
  - intros Hs. apply Z.eqb_neq in Hs.
    unfold findLastTrade_calls, findLastTrade. rewrite call_cons.
    change (processResponse self None
              (raw_err (mkRaw NoError (Json None (SparseArray (None :: l)))))
              (raw_body (mkRaw NoError (Json None (SparseArray (None :: l))))))
      with (@Next openOrders None
              (Body (Json None (SparseArray (None :: l))))).
    unfold findLastTrade_handle.
    cbn [view of_json openOrders_payload length_falsy elements app
         find_reading].
    rewrite Hs. reflexivity.
Qed.

Lemma findLastTrade_never_reports_failure_witness :
  findLastTrade_calls Samples.trader 2 1522584170000 3
    [ mkRaw NoError (Json None (OrderArray [])) ]
  = Some ([ Call (None, None); Call (None, None) ], 1%nat)
  /\ findLastTrade_calls Samples.trader 2 1522584170000 3
       [ mkRaw NoError (Json None (SparseArray [ None ])) ]
     = Some ([ Raise TypeError ], 1%nat).
Proof.
  destruct (@findLastTrade_never_reports_failure Samples.trader 2
              1522584170000 2 [ Samples.not_found ] [] []
              [ Raise ReferenceError ] 1 eq_refl) as [_ [Hempty Hnull]].
  split; [exact Hempty | apply Hnull; discriminate].
Defined.

(** ** [getOrder]: what the reduction keeps *)

Local Open Scope float_scope.

(** X7.  The amount [getOrder] reports is the sum of the fills' amounts,
    added in order starting from 0, and its date is the date of the last
    fill, the epoch when there is none. *)
Theorem getOrder_amount_and_date
    (self : Trader) (fills : list trade) (cap : nat)
    (rest : list (raw (list trade))) :
  exists p,
    getOrder self (S cap) (mkRaw NoError (Json None fills) :: rest)
    = Some (Done (mkSummary p
                    (fold_left (fun total t => total + t_amount t) fills 0)
                    (last (map t_date fills) (DateAt 0))),
            1%nat).
Proof.
  pose proof (accumulate_amount fills (mkSummary 0 0 (DateAt 0))) as Ha.
  pose proof (accumulate_date fills (mkSummary 0 0 (DateAt 0))) as Hd.
  cbn [amount date] in Ha, Hd.
  exists (price (fold_left accumulate fills (mkSummary 0 0 (DateAt 0)))).
  rewrite <- Ha, <- Hd.
  rewrite getOrder_fills.
  destruct (fold_left accumulate fills (mkSummary 0 0 (DateAt 0))); reflexivity.
Qed.

(** ** [getTicker] *)

Lemma tick_of_none (t : ticker) (name : string) :
  (forall k entry, In (k, entry) t -> k <> name) -> tick_of t name = None.
Proof.
  induction t as [| [k entry] t IH]; intros H; simpl; [reflexivity |].
  destruct (String.eqb_spec k name) as [-> | _].
  - exfalso. exact (H name entry (or_introl eq_refl) eq_refl).
  - apply IH. intros k' e' Hin. apply (H k' e'). right. exact Hin.
Qed.

(** X8.  Poloniex's [getTicker] reports the bid and the ask of the entry the
    ticker has for the adapter's pair [currency_asset]; when the ticker has no
    entry for the pair it reports nothing to its callback: reading the entry
    raises a TypeError. *)
Theorem getTicker_pair_listed_or_raises
    (self : Trader) (t : ticker) (cap : nat) (rest : list (raw ticker)) :
  ((forall k entry, In (k, entry) t -> k <> pair self) ->
   getTicker self (S cap) (mkRaw NoError (Json None t) :: rest)
   = Some (Thrown TypeError, 1%nat))
  /\ (forall before entry after,
        t = (before ++ (pair self, entry) :: after)%list ->
        (forall k e, In (k, e) before -> k <> pair self) ->
        getTicker self (S cap) (mkRaw NoError (Json None t) :: rest)
        = Some (Done (mkQuote (highestBid entry) (lowestAsk entry)), 1%nat)).
Proof.
  assert (Hrun : getTicker self (S cap) (mkRaw NoError (Json None t) :: rest)
                 = Some (match tick_of t (pair self) with
                         | None => Thrown TypeError
                         | Some tick =>
                             Done (mkQuote (highestBid tick) (lowestAsk tick))
                         end, 1%nat)).
  { unfold getTicker. rewrite call_cons.
    change (processResponse self None
              (raw_err (mkRaw NoError (Json None t)))
              (raw_body (mkRaw NoError (Json None t))))
      with (@Next ticker None (Body (Json None t))).
    reflexivity. }
  split.
  - intros Hnone. rewrite Hrun, (tick_of_none _ Hnone). reflexivity.
  - intros before entry after -> Hb. rewrite Hrun.
    assert (Hf : tick_of (before ++ (pair self, entry) :: after)%list
                   (pair self)
                 = Some entry).
    { clear Hrun. induction before as [| [k e] before IH]; simpl.
      - rewrite String.eqb_refl. reflexivity.
      - destruct (String.eqb_spec k (pair self)) as [Heq | _].
        + exfalso. exact (Hb k e (or_introl eq_refl) Heq).
        + apply IH. intros k' e' Hin. apply (Hb k' e'). right. exact Hin. }
    rewrite Hf. reflexivity.
Qed.

Lemma getTicker_pair_listed_or_raises_witness :
  getTicker Samples.other_trader 3 [ mkRaw NoError (Json None Samples.tickers) ]
  = Some (Thrown TypeError, 1%nat)
  /\ getTicker Samples.trader 3 [ mkRaw NoError (Json None Samples.tickers) ]
     = Some (Done (mkQuote 0.0712 0.0713), 1%nat).
Proof.
  split.
  - apply (proj1 (getTicker_pair_listed_or_raises Samples.other_trader
                    Samples.tickers 2 [])).
    intros k entry [[= <- _] | [[= <- _] | []]]; discriminate.
  - apply (proj2 (getTicker_pair_listed_or_raises Samples.trader
                    Samples.tickers 2 [])
             [ ("BTC_LTC"%string, mkTick 0.0251 0.0252) ]
             (mkTick 0.0712 0.0713) []).
    + reflexivity.
    + intros k e [[= <- _] | []]. discriminate.
Defined.

(** ** Binance: [handleResponse] *)

Local Open Scope string_scope.

Lemma str_includes_prefix (p rest : string) : str_includes (p ++ rest) p = true.
Proof. apply str_includes_spec. exists "", rest. reflexivity. Qed.

Lemma binance_matches_intro (msg alt : string) :
  In alt Binance.recoverableErrors ->
  str_includes msg alt = true -> Binance.matches msg = true.
Proof. intros Hin Hs. apply existsb_exists. eauto. Qed.

(** X9.  On Binance a body that carries a [code] decides alone: the error is
    built from the body's code and message, whatever the transport reported
    (no error included), so such a body is never passed on as a success; and
    the code -1021 always gives a retryable error. *)
Theorem body_code_overrides_transport
    (P : Type) (funcName : string) (e1 e2 : option string) (b : Binance.body P) :
  Binance.code b <> 0%Z ->
  Binance.handleResponse funcName e1 (Some b)
  = Binance.handleResponse funcName e2 (Some b)
  /\ fst (Binance.handleResponse funcName e1 (Some b)) <> None
  /\ (Binance.code b = (-1021)%Z ->
      fst (Binance.handleResponse funcName e1 (Some b))
      = Some (Binance.RetryError
                ("[binance.js] Error -1021: " ++ Binance.msg b))).
Proof.
  intros Hc. apply Z.eqb_neq in Hc.
  unfold Binance.handleResponse. rewrite Hc. split; [reflexivity |]. split.
  - cbn [fst Binance.processError]. destruct (_ || _); discriminate.
  - intros Hcode. rewrite Hcode. cbn [fst Binance.processError].
    change ("Error " ++ Binance.decimal (-1021) ++ ": " ++ Binance.msg b)
      with ("Error -1021" ++ ": " ++ Binance.msg b).
    rewrite (@binance_matches_intro ("Error -1021" ++ ": " ++ Binance.msg b)
               "Error -1021");
      [reflexivity | unfold Binance.recoverableErrors; simpl; tauto
       | apply str_includes_prefix].
Qed.

Lemma body_code_overrides_transport_witness :
  Binance.handleResponse "addOrder" None
    (Some (Binance.mkBody (-1021) "Timestamp for this request is outside of the recvWindow." tt))
  = Binance.handleResponse "addOrder" (Some "ESOCKETTIMEDOUT")
      (Some (Binance.mkBody (-1021) "Timestamp for this request is outside of the recvWindow." tt))
  /\ fst (Binance.handleResponse "addOrder" None
            (Some (Binance.mkBody (-1021) "Timestamp for this request is outside of the recvWindow." tt)))
     = Some (Binance.RetryError
               "[binance.js] Error -1021: Timestamp for this request is outside of the recvWindow.").
Proof.
  destruct (@body_code_overrides_transport unit "addOrder" None
              (Some "ESOCKETTIMEDOUT")
              (Binance.mkBody (-1021)
                 "Timestamp for this request is outside of the recvWindow." tt))
    as [Hsame [_ Hretry]].
  - discriminate.
  - split; [exact Hsame | exact (Hretry eq_refl)].
Defined.

(** ** Binance: [cancelOrder] *)

(** X10.  Binance's [cancelOrder] reports [true] (already filled) for an
    error answer whose body says UNKNOWN_ORDER and whose error is not a
    retryable one; the same body under the retryable code -1021 makes the
    scheduler ask again instead; an answer with neither an error nor a code
    gives [false]. *)
Theorem binance_cancelOrder_unknown_order
    (P : Type) (e : option string) (code : Z) (p : P)
    (rest : list (option string * option (Binance.body P))) :
  code <> 0%Z ->
  Binance.matches ("Error " ++ Binance.decimal code ++ ": " ++ "UNKNOWN_ORDER")
  = false ->
  Binance.cancelOrder ((e, Some (Binance.mkBody code "UNKNOWN_ORDER" p)) :: rest)
  = Some (Done true, 1%nat)
  /\ Binance.cancelOrder
       ((e, Some (Binance.mkBody (-1021) "UNKNOWN_ORDER" p)) :: rest)
     = Retry.bump (Binance.cancelOrder rest)
  /\ (forall m, Binance.cancelOrder ((None, Some (Binance.mkBody 0 m p)) :: rest)
                = Some (Done false, 1%nat)).
Proof.
  intros Hc Hm. apply Z.eqb_neq in Hc. split; [| split].
  - unfold Binance.cancelOrder, Binance.request_forever.
    cbn [map fst snd Retry.retry_forever Binance.handleResponse
         Binance.code Binance.msg].
    rewrite Hc. cbn [Binance.processError]. rewrite Hm. reflexivity.
  - reflexivity.
  - intros m. reflexivity.
Qed.

Lemma binance_cancelOrder_unknown_order_witness :
  Binance.cancelOrder [ Samples.unknown_order ] = Some (Done true, 1%nat)
  /\ Binance.cancelOrder
       [ (None, Some (Binance.mkBody (-1021) "UNKNOWN_ORDER" tt));
         Samples.unknown_order ]
     = Some (Done true, 2%nat).
Proof.
  destruct (@binance_cancelOrder_unknown_order unit None (-2011) tt [])
    as [H1 _]; [discriminate | reflexivity |].
  destruct (@binance_cancelOrder_unknown_order unit None (-2011) tt
              [ Samples.unknown_order ])
    as [_ [H2 _]]; [discriminate | reflexivity |].
  split; [exact H1 |]. rewrite H2. unfold Samples.unknown_order at 1.
  rewrite H1. reflexivity.
Defined.

(** ** Binance: [getPortfolio] *)

Local Open Scope float_scope.

(** X11.  Binance's [getPortfolio] reports two entries, asset then currency,
    only when both are listed with a free balance that is a number; when one
    of them is not listed, or its free balance is NaN, it raises a TypeError
    instead of reporting 0: the amounts are [const] and cannot be reset. *)
Theorem binance_getPortfolio_raises_on_invalid
    (self : Binance.Trader) (b : Binance.body (list Binance.balance))
    (l : list (string * float)) :
  (Binance.setBalance self None (Some b) = Done l ->
   exists a c,
     Binance.find_balance (Binance.payload b) (Binance.asset self) = Some a
     /\ Binance.find_balance (Binance.payload b) (Binance.currency self) = Some c
     /\ isNaN (Binance.free a) = false /\ isNaN (Binance.free c) = false
     /\ l = [ (Binance.asset self, Binance.free a);
              (Binance.currency self, Binance.free c) ])
  /\ (Binance.find_balance (Binance.payload b) (Binance.asset self) = None
      \/ Binance.find_balance (Binance.payload b) (Binance.currency self) = None
      \/ (exists x,
             (Binance.find_balance (Binance.payload b) (Binance.asset self) = Some x
              \/ Binance.find_balance (Binance.payload b) (Binance.currency self)
                 = Some x)
             /\ isNaN (Binance.free x) = true) ->
      Binance.setBalance self None (Some b) = Thrown "TypeError"%string).
Proof.
  unfold Binance.setBalance.
  destruct (Binance.find_balance (Binance.payload b) (Binance.asset self))
    as [a |] eqn:Ha;
  destruct (Binance.find_balance (Binance.payload b) (Binance.currency self))
    as [c |] eqn:Hc.
  - destruct (isNaN (Binance.free a)) eqn:Na;
    destruct (isNaN (Binance.free c)) eqn:Nc; split; try discriminate;
      try reflexivity.
    + intros [= <-]. exists a, c. auto.
    + intros [[=] | [[=] | [x [[[= <-] | [= <-]] Hx]]]]; congruence.
  - split; [discriminate | reflexivity].
  - split; [discriminate | reflexivity].
  - split; [discriminate | reflexivity].
Qed.

Lemma binance_getPortfolio_raises_on_invalid_witness :
  Binance.setBalance Samples.binance_trader None
    (Some (Binance.mkBody 0 ""
             [ Binance.mkBalance "ETH" 1.5; Binance.mkBalance "BTC" nan ]))
  = Thrown "TypeError"%string.
Proof.
  apply (proj2 (binance_getPortfolio_raises_on_invalid Samples.binance_trader
                  (Binance.mkBody 0 ""
                     [ Binance.mkBalance "ETH" 1.5; Binance.mkBalance "BTC" nan ])
                  [])).
  right. right. exists (Binance.mkBalance "BTC" nan).
  split; [right; reflexivity | reflexivity].
Defined.

(** ** Binance: [getTicker] and [getOrder] *)

Local Open Scope string_scope.

Lemma find_app_first {A} (f : A -> bool) (before after : list A) (x : A) :
  f x = true ->
  (forall y, In y before -> f y = false) ->
  find f (before ++ x :: after)%list = Some x.
Proof.
  intros Hx. induction before as [| a before IH]; intros Hb; simpl.
  - rewrite Hx. reflexivity.
  - rewrite (Hb a (or_introl eq_refl)). apply IH.
    intros y Hy. apply Hb. right. exact Hy.
Qed.

Lemma find_all_false {A} (f : A -> bool) (l : list A) :
  (forall y, In y l -> f y = false) -> find f l = None.
Proof.
  induction l as [| a l IH]; intros H; simpl; [reflexivity |].
  rewrite (H a (or_introl eq_refl)). apply IH.
  intros y Hy. apply H. right. exact Hy.
Qed.

(** X12.  Binance's [getTicker] reports the ask and the bid of the first book
    ticker whose symbol is the adapter's pair [asset ++ currency]; when no
    ticker has that symbol, or no data came, it passes the error "Market
    <pair> not found on Binance" to its callback. *)
Theorem binance_getTicker_found_or_error
    (self : Binance.Trader)
    (before after : list Binance.bookTicker) (t : Binance.bookTicker)
    (others : list Binance.bookTicker) (code : Z) (m : string) :
  Binance.symbol t = Binance.pair self ->
  (forall x, In x before -> Binance.symbol x <> Binance.pair self) ->
  (forall x, In x others -> Binance.symbol x <> Binance.pair self) ->
  Binance.setTicker self None
    (Some (Binance.mkBody code m (before ++ t :: after)%list))
  = Done (Binance.mkQuote (Binance.askPrice t) (Binance.bidPrice t))
  /\ Binance.setTicker self None (Some (Binance.mkBody code m others))
     = Fail (Binance.Plain
               ("Market " ++ Binance.pair self ++ " not found on Binance"))
  /\ Binance.setTicker self None None
     = Fail (Binance.Plain
               ("Market " ++ Binance.pair self ++ " not found on Binance")).
Proof.
  intros Ht Hb Ho. unfold Binance.setTicker. cbn [Binance.payload].
  split; [| split; [| reflexivity]].
  - rewrite (find_app_first _ before after t); [reflexivity | |].
    + apply String.eqb_eq. exact Ht.
    + intros y Hy. apply String.eqb_neq. exact (Hb y Hy).
  - rewrite find_all_false; [reflexivity |].
    intros y Hy. apply String.eqb_neq. exact (Ho y Hy).
Qed.

Lemma binance_getTicker_found_or_error_witness :
  Binance.setTicker Samples.binance_trader None
    (Some (Binance.mkBody 0 ""
             [ Binance.mkBookTicker "LTCBTC" 0.0252 0.0251;
               Binance.mkBookTicker "ETHBTC" 0.0713 0.0712 ]))
  = Done (Binance.mkQuote 0.0713 0.0712)
  /\ Binance.setTicker Samples.binance_trader None
       (Some (Binance.mkBody 0 "" [ Binance.mkBookTicker "LTCBTC" 0.0252 0.0251 ]))
     = Fail (Binance.Plain "Market ETHBTC not found on Binance").
Proof.
  destruct (@binance_getTicker_found_or_error Samples.binance_trader
              [ Binance.mkBookTicker "LTCBTC" 0.0252 0.0251 ] []
              (Binance.mkBookTicker "ETHBTC" 0.0713 0.0712)
              [ Binance.mkBookTicker "LTCBTC" 0.0252 0.0251 ] 0 "")
    as [Hfound [Hmissing _]].
  - reflexivity.
  - intros x [<- | []]. discriminate.
  - intros x [<- | []]. discriminate.
  - split; [exact Hfound | exact Hmissing].
Defined.

(** X13.  Binance's [getOrder] reports the first of the account's trades that
    belongs to the order, and that trade only: further trades of the same
    order do not change the price, the amount, the date or the fees it
    reports.  When no trade belongs to the order it passes the error "Trade
    not found" to its callback. *)
Theorem binance_getOrder_first_trade_only
    (order : Z) (before after after' : list Binance.myTrade)
    (t : Binance.myTrade) (others : list Binance.myTrade)
    (code : Z) (m : string) :
  Binance.orderId t = order ->
  (forall x, In x before -> Binance.orderId x <> order) ->
  (forall x, In x others -> Binance.orderId x <> order) ->
  Binance.get order None
    (Some (Binance.mkBody code m (before ++ t :: after)%list))
  = Done (Binance.fill_of t)
  /\ Binance.get order None
       (Some (Binance.mkBody code m (before ++ t :: after)%list))
     = Binance.get order None
         (Some (Binance.mkBody code m (before ++ t :: after')%list))
  /\ Binance.get order None (Some (Binance.mkBody code m others))
     = Fail (Binance.Plain "Trade not found").
Proof.
  intros Ht Hb Ho. unfold Binance.get. cbn [Binance.payload].
  assert (Hf : forall rest,
             find (fun x => (Binance.orderId x =? order)%Z)
                  (before ++ t :: rest)%list = Some t).
  { intros rest. apply find_app_first.
    - apply Z.eqb_eq. exact Ht.
    - intros y Hy. apply Z.eqb_neq. exact (Hb y Hy). }
  split; [| split].
  - rewrite Hf. reflexivity.
  - rewrite !Hf. reflexivity.
  - rewrite find_all_false; [reflexivity |].
    intros y Hy. apply Z.eqb_neq. exact (Ho y Hy).
Qed.

Lemma binance_getOrder_first_trade_only_witness :
  Binance.get 7 None (Some (Binance.mkBody 0 "" Samples.my_trades))
  = Done (Binance.mkFill 0.0712 2 1522584060000 ("BNB", 0.002%float))
  /\ Binance.get 7 None
       (Some (Binance.mkBody 0 ""
                [ Binance.mkMyTrade 5 0.07 1 1522584000000 "BNB" 0.001 ]))
     = Fail (Binance.Plain "Trade not found").
Proof.
  destruct (@binance_getOrder_first_trade_only 7
              [ Binance.mkMyTrade 5 0.07 1 1522584000000 "BNB" 0.001 ]
              [ Binance.mkMyTrade 7 0.0713 3 1522584061000 "BNB" 0.003 ] []
              (Binance.mkMyTrade 7 0.0712 2 1522584060000 "BNB" 0.002)
              [ Binance.mkMyTrade 5 0.07 1 1522584000000 "BNB" 0.001 ] 0 "")
    as [Hfirst [_ Hnone]].
  - reflexivity.
  - intros x [<- | []]. discriminate.
  - intros x [<- | []]. discriminate.
  - split; [exact Hfirst | exact Hnone].
Defined.

(** ** Binance: [getTrades] *)

Local Open Scope Z_scope.

(** X14.  When [since] is given, [getTrades] asks for the trades from [since]
    to an end that is one hour later or the current instant, whichever comes
    first: the end is never in the future and never more than an hour after
    the start; it lies before the start exactly when [since] is in the
    future. *)
Theorem getTrades_window (self : Binance.Trader) (since now : Z) :
  exists e,
    Binance.reqData self (Some since) now
    = Binance.mkTradesRequest (Binance.pair self) (Some since) (Some e)
    /\ e = Z.min (since + 3600000) now
    /\ e <= now /\ e - since <= 3600000
    /\ (e < since <-> now < since).
Proof.
  unfold Binance.reqData.
  destruct (now <? since + 3600000) eqn:H;
    [apply Z.ltb_lt in H | apply Z.ltb_ge in H].
  - exists now. repeat split; lia.
  - exists (since + 3600000). repeat split; lia.
Qed.

(** X15.  [getTrades] reports one parsed trade per aggregated trade of the
    answer, none when no data came: ascending they are in the order of the
    answer, descending in the reverse order; each keeps the identifier of its
    trade and is dated in whole seconds, the timestamp's milliseconds being
    cut off. *)
Theorem getTrades_parsed_trades
    (b : Binance.body (list Binance.aggTrade)) :
  exists l,
    Binance.processResults false None (Some b) = Done l
    /\ Binance.processResults true None (Some b) = Done (rev l)
    /\ Binance.processResults false None None = Done []
    /\ List.length l = List.length (Binance.payload b)
    /\ map Binance.tid l = map Binance.aggTradeId (Binance.payload b)
    /\ Forall2 (fun (t : Binance.aggTrade) (p : Binance.parsedTrade) =>
                  Binance.date p * 1000 <= Binance.timestamp t
                                          < Binance.date p * 1000 + 1000)
               (Binance.payload b) l.
Proof.
  exists (map Binance.parseTrade (Binance.payload b)).
  split; [reflexivity |]. split; [reflexivity |]. split; [reflexivity |].
  split; [apply length_map |]. split; [rewrite map_map; reflexivity |].
  induction (Binance.payload b) as [| t l IH]; simpl; constructor; auto.
  unfold Binance.parseTrade, Binance.unix. cbn [Binance.date].
  pose proof (Z.div_mod (Binance.timestamp t) 1000 ltac:(lia)) as Hdm.
  pose proof (Z.mod_pos_bound (Binance.timestamp t) 1000 ltac:(lia)) as Hb.
  lia.
Qed.

Local Close Scope Z_scope.

(** ** Binance: when [getPrecision] does not end *)

Local Open Scope float_scope.

Lemma getPrecision_loop_at_infinity (t : float) :
  isFinite t = true ->
  forall fuel p, Binance.getPrecision_loop fuel t infinity p = None.
Proof.
  intros H. induction fuel as [| fuel IH]; intros p; [reflexivity |].
  cbn [Binance.getPrecision_loop]. rewrite (exact_at_infinity t H).
  cbn [negb]. change (infinity * 10) with infinity. apply IH.
Qed.

Lemma getPrecision_loop_skip (t : float) (n : nat) :
  forall (fuel : nat) (e : float) (p : nat),
    (forall j, (j < n)%nat ->
       Binance.exact_at t (Nat.iter j (fun e => e * 10) e) = false) ->
    Binance.getPrecision_loop (n + fuel) t e p
    = Binance.getPrecision_loop fuel t (Nat.iter n (fun e => e * 10) e) (n + p).
Proof.
  induction n as [| n IH]; intros fuel e p H; [reflexivity |].
  assert (H0 : Binance.exact_at t e = false) by (apply (H O); lia).
  rewrite Nat.iter_succ_r.
  cbn [Nat.add Binance.getPrecision_loop].
  rewrite H0. cbn [negb].
  rewrite IH.
  - f_equal. lia.
  - intros j Hj. pose proof (H (S j) ltac:(lia)) as Hs.
    rewrite Nat.iter_succ_r in Hs. exact Hs.
Qed.

(** X16.  [getPrecision] does not end on every finite tick size: the factor
    [e] overflows to infinity after 309 multiplications by ten, and a tick
    size that is not exact at any of the powers of ten below keeps the loop
    running for ever, so [round], [roundAmount] and [roundPrice] never return
    for it. *)
Theorem getPrecision_never_ends
    (approx : nat -> float)
    (t : float) (fuel : nat) (market : Binance.minimalOrder) (x : float) :
  isFinite t = true ->
  (forall j, (j < 309)%nat -> Binance.exact_at t (pow10 j) = false) ->
  Binance.getPrecision fuel t = None
  /\ Binance.round approx fuel x t = None
  /\ (Binance.m_amount market = t ->
      Binance.roundAmount approx fuel market x = None)
  /\ (Binance.m_price market = t ->
      Binance.roundPrice approx fuel market x = None).
Proof.
  intros Hfin Hnever.
  assert (Hp : Binance.getPrecision fuel t = None).
  { unfold Binance.getPrecision. rewrite Hfin. cbn [negb].
    destruct (Nat.le_gt_cases 309 fuel) as [Hle | Hlt].
    - replace fuel with (309 + (fuel - 309))%nat by lia.
      rewrite getPrecision_loop_skip by exact Hnever.
      replace (Nat.iter 309 (fun e => e * 10) 1) with infinity
        by (vm_compute; reflexivity).
      apply getPrecision_loop_at_infinity. exact Hfin.
    - replace fuel with (fuel + 0)%nat by lia.
      rewrite getPrecision_loop_skip; [reflexivity |].
      intros j Hj. apply Hnever. lia. }
  split; [exact Hp |].
  assert (Hr : forall y, Binance.round approx fuel y t = None)
    by (intros y; unfold Binance.round; rewrite Hp; reflexivity).
  split; [apply Hr |].
  split; intros <-; apply Hr.
Qed.

Lemma getPrecision_never_ends_witness :
  Binance.getPrecision 1000 0x1p-1074 = None
  /\ Binance.round nearest_pow10 1000 1.5 0x1p-1074 = None.
Proof.
  destruct (@getPrecision_never_ends nearest_pow10 0x1p-1074 1000
              Samples.market 1.5)
    as [Hp [Hr _]].
  - reflexivity.
  - intros j Hj.
    assert (Hall : forallb (fun j => negb (Binance.exact_at 0x1p-1074 (pow10 j)))
                     (seq 0 309) = true) by (vm_compute; reflexivity).
    rewrite forallb_forall in Hall.
    specialize (Hall j). rewrite in_seq in Hall.
    apply negb_true_iff. apply Hall. lia.
  - split; [exact Hp | exact Hr].
Defined.

(** ** Binance: [isValidPrice], [isValidLot] *)

Lemma isNaN_Prim2SF (x : float) : isNaN x = true -> Prim2SF x = S754_nan.
Proof.
  unfold isNaN, is_nan. rewrite FloatAxioms.eqb_spec. unfold SFeqb, SFcompare.
  destruct (Prim2SF x) as [[] | [] | | [] m e]; try discriminate; auto;
    rewrite Z.compare_refl;
    replace (PosDef.Pos.compare_cont Eq m m) with Eq
      by (symmetry; apply Pos.compare_refl);
    discriminate.
Qed.

Lemma leb_nan_r (a x : float) : isNaN x = true -> (a <=? x) = false.
Proof.
  intros H. rewrite FloatAxioms.leb_spec, (isNaN_Prim2SF _ H).
  unfold SFleb, SFcompare. destruct (Prim2SF a); reflexivity.
Qed.

Lemma leb_nan_l (a x : float) : isNaN a = true -> (a <=? x) = false.
Proof.
  intros H. rewrite FloatAxioms.leb_spec, (isNaN_Prim2SF _ H). reflexivity.
Qed.

Lemma mul_nan (a b : float) :
  isNaN a = true \/ isNaN b = true -> Prim2SF (a * b) = S754_nan.
Proof.
  intros H. rewrite FloatAxioms.mul_spec. unfold SF64mul, SFmul.
  destruct H as [H | H]; rewrite (isNaN_Prim2SF _ H);
    [reflexivity | destruct (Prim2SF a); reflexivity].
Qed.

(** X17.  A price or an amount that is NaN never passes Binance's checks:
    [isValidPrice] is false for a NaN price and [isValidLot] is false as soon
    as the price or the amount is NaN; and a market whose minimal price or
    minimal order value is NaN accepts no price and no lot at all. *)
Theorem nan_is_never_valid
    (market : Binance.minimalOrder) (price amount : float) :
  (isNaN price = true -> Binance.isValidPrice market price = false)
  /\ (isNaN price = true \/ isNaN amount = true ->
      Binance.isValidLot market price amount = false)
  /\ (isNaN (Binance.m_price market) = true ->
      Binance.isValidPrice market price = false)
  /\ (isNaN (Binance.m_order market) = true ->
      Binance.isValidLot market price amount = false).
Proof.
  unfold Binance.isValidPrice, Binance.isValidLot. repeat split.
  - apply leb_nan_r.
  - intros H. rewrite FloatAxioms.leb_spec, mul_nan by tauto.
    unfold SFleb, SFcompare. destruct (Prim2SF (Binance.m_order market));
      reflexivity.
  - apply leb_nan_l.
  - apply leb_nan_l.
Qed.

Lemma nan_is_never_valid_witness :
  Binance.isValidPrice Samples.market nan = false
  /\ Binance.isValidLot Samples.market 0.07 nan = false.
Proof.
  destruct (nan_is_never_valid Samples.market nan 0.07) as [Hp _].
  destruct (nan_is_never_valid Samples.market 0.07 nan) as [_ [Hl _]].
  split; [apply Hp; reflexivity | apply Hl; right; reflexivity].
Defined.
